(** * matrix-gatekeeper: the event handlers of [main.py]

    A shallow embedding of the gatekeeper bot and the proofs of its
    documented properties.

    - Python [str] values are lists of code points.
    - The closures of [main] share five [nonlocal] variables; they are the
      bot fields of [Sys], threaded through a state-and-exception monad [M].
    - The Matrix client is external: it is a [Transport], a transition
      system over an arbitrary type of worlds that answers [room_invite],
      [room_create] and [room_send] with a returned object or a raised
      exception.  Every theorem holds for all transports.
    - [Sys] also carries a trace: every client call with its answer, and
      an [Enter] mark each time one of the inner coroutines is awaited, so
      that an action that returns at once is still seen to have fired.
    - [main] is taken up at l. 98, [client.whoami] having answered; a
      [client.sync] is the run of the callbacks on the events it delivers.
    - The endless loop of [main] is run for a finite list of batches.
    - [log.*] calls change neither state nor control flow and are left out;
      JSON numbers are integers. *)

From Stdlib Require Import ZArith NArith Ascii String List Lia.
From stdpp Require Import base decidable countable gmap list.
Import ListNotations.
Set Warnings "-register-all".

(** ** Python strings *)

Abbreviation codepoint := N (only parsing).
Abbreviation pystr := (list N) (only parsing).

(** An ASCII literal as a Python string. *)
Definition py (s : string) : pystr := map N_of_ascii (list_ascii_of_string s).

(** [s.replace(old, new)] where [old] is a single code point. *)
Definition replace1 (old : codepoint) (new : pystr) (s : pystr) : pystr :=
  flat_map (fun c => if N.eqb c old then new else [c]) s.

Fixpoint starts_with (p s : pystr) : bool :=
  match p, s with
  | [], _ => true
  | a :: p', b :: s' => N.eqb a b && starts_with p' s'
  | _ :: _, [] => false
  end.

(** [needle in hay] on strings. *)
Fixpoint contains (needle hay : pystr) : bool :=
  starts_with needle hay ||
  match hay with
  | [] => false
  | _ :: hay' => contains needle hay'
  end.

(** Truth value of a string: [if s:]. *)
Definition truthy (s : pystr) : bool :=
  match s with [] => false | _ :: _ => true end.

Definition str_eq (a b : pystr) : bool := bool_decide (a = b).

(** ** The reaction classifier (main.py, l. 54-57) *)

Definition CHECKMARKS : gset pystr :=
  {[ [0x2705%N]; [0x2714%N]; [0x2611%N] ]}.

Definition is_checkmark (key : pystr) : bool :=
  let stripped := replace1 0xfe0f%N [] (replace1 0xfe0e%N [] key) in
  bool_decide (stripped ∈ CHECKMARKS).

(** ** JSON values, as found in [event.source] *)

Inductive json :=
| JNull
| JBool (b : bool)
| JNum (n : Z)
| JStr (s : pystr)
| JList (l : list json)
| JDict (d : list (pystr * json)).

Fixpoint assoc (k : pystr) (d : list (pystr * json)) : option json :=
  match d with
  | [] => None
  | (k', v) :: d' => if str_eq k k' then Some v else assoc k d'
  end.

Definition type_name (v : json) : pystr :=
  match v with
  | JNull => py "NoneType"
  | JBool _ => py "bool"
  | JNum _ => py "int"
  | JStr _ => py "str"
  | JList _ => py "list"
  | JDict _ => py "dict"
  end.

(** ** Exceptions and results of calls *)

Inductive exn :=
| TransportError (text : pystr)           (* raised by a client call; [str(e) = text] *)
| AttributeError (type attr : pystr)      (* [v.attr] on a value that has none *)
| Unhashable (type : pystr).              (* [v in a_set] for a list or a dict *)

Definition exn_str (e : exn) : pystr :=
  match e with
  | TransportError text => text
  | AttributeError type attr =>
      py "'" ++ type ++ py "' object has no attribute '" ++ attr ++ py "'"
  | Unhashable type => py "unhashable type: '" ++ type ++ py "'"
  end.

Inductive outcome (A : Type) :=
| Returned (a : A)
| Raised (e : exn).
Arguments Returned {A} a.
Arguments Raised {A} e.

(** ** Events delivered by the client *)

Record MatrixRoom := { room_id : pystr; users : list pystr }.

Module RoomMemberEvent.
Record t := { sender : pystr; membership : pystr; prev_membership : option pystr }.
End RoomMemberEvent.

(** [reacts_to] and [key] are read with [getattr(event, name, default)]:
    [None] stands for a missing attribute. *)
Module ReactionEvent.
Record t := { sender : pystr; reacts_to : option pystr; key : option pystr }.
End ReactionEvent.

Module UnknownEvent.
Record t := { sender : pystr; type : pystr; source : list (pystr * json) }.
End UnknownEvent.

Inductive Event :=
| Member (e : RoomMemberEvent.t)
| Reaction (e : ReactionEvent.t)
| Unknown (e : UnknownEvent.t)
| Other.                                   (* any class without a callback *)

(** ** Configuration: the module-level constants and [client.user_id] *)

Record Config := {
  TARGET_ROOM_ID : pystr;
  TARGET_EVENT_ID : pystr;
  INVITE_SPACE_ID : pystr;
  REPOST_EVERY_N_JOINS : Z;
  RULES_TEXT : pystr;
  RULES_HTML : pystr;
  WELCOME_TEXT : pystr;
  WELCOME_HTML : pystr;
  TIPS_TEXT : pystr;
  TIPS_HTML : pystr;
  user_id : pystr
}.

(** ** The transport *)

(** The dict [{"msgtype": "m.text", "body": ..}], with the two html keys
    when [formatted_body] is present. *)
Record Content := { body : pystr; formatted_body : option pystr }.

(** What [room_invite] returns: an object that has a [message] attribute
    (nio's error responses) or has none. *)
Record InviteResp := { message : option pystr }.

Inductive CreateResp :=
| RoomCreateResponse (room_id : pystr)
| CreateOther.                             (* not a [RoomCreateResponse] *)

Inductive SendResp :=
| RoomSendResponse (event_id : pystr)
| SendOther.                               (* not a [RoomSendResponse] *)

Record Transport (W : Type) := {
  room_invite : W -> pystr -> pystr -> outcome InviteResp * W;
  room_create : W -> pystr -> outcome CreateResp * W;
  room_send : W -> pystr -> Content -> outcome SendResp * W
}.
Arguments room_invite {W} _ _ _ _.
Arguments room_create {W} _ _ _.
Arguments room_send {W} _ _ _ _.

Inductive Coroutine :=
| Post_rules
| Send_welcome_dm (user : pystr)
| Send_tips_dm (user : pystr)
| Handle_invite (user : pystr)
| Send_dm (user message html : pystr).

Inductive Effect :=
| Enter (c : Coroutine)
| Room_invite (room user : pystr) (r : outcome InviteResp)
| Room_create (invite : pystr) (r : outcome CreateResp)
| Room_send (room : pystr) (content : Content) (r : outcome SendResp).

(** ** The engine: state, monad and the closures of [main] *)

Section Engine.

Context {W : Type}.
Variable transport : Transport W.
Variable cfg : Config.
(** Python's [str.lower]. *)
Variable str_lower : pystr -> pystr.

(** The [nonlocal] variables of [main] (l. 98-102), the transport's world
    and the trace. *)
Record Sys := {
  invited_users : gset pystr;
  welcomed_users : gset pystr;
  rules_event_ids : gset pystr;
  join_count : Z;
  initial_sync_done : bool;
  world : W;
  trace : list Effect
}.

Definition M (A : Type) : Type := Sys -> outcome A * Sys.

#[global] Instance M_ret : MRet M := fun A a s => (Returned a, s).

#[global] Instance M_bind : MBind M := fun A B f m s =>
  match m s with
  | (Returned a, s') => f a s'
  | (Raised e, s') => (Raised e, s')
  end.

Definition get : M Sys := fun s => (Returned s, s).

Definition modify (f : Sys -> Sys) : M unit := fun s => (Returned tt, f s).

Definition raise {A : Type} (e : exn) : M A := fun s => (Raised e, s).

(** [try: m  except Exception as e: h e]. *)
Definition try_except {A : Type} (m : M A) (h : exn -> M A) : M A := fun s =>
  match m s with
  | (Returned a, s') => (Returned a, s')
  | (Raised e, s') => h e s'
  end.

Definition record (e : Effect) (w : W) (s : Sys) : Sys :=
  {| invited_users := invited_users s; welcomed_users := welcomed_users s;
     rules_event_ids := rules_event_ids s; join_count := join_count s;
     initial_sync_done := initial_sync_done s;
     world := w; trace := trace s ++ [e] |}.

Definition enter (c : Coroutine) : M unit :=
  modify (fun s => record (Enter c) (world s) s).

Definition add_invited (u : pystr) (s : Sys) : Sys :=
  {| invited_users := invited_users s ∪ {[u]}; welcomed_users := welcomed_users s;
     rules_event_ids := rules_event_ids s; join_count := join_count s;
     initial_sync_done := initial_sync_done s;
     world := world s; trace := trace s |}.

Definition add_welcomed (u : pystr) (s : Sys) : Sys :=
  {| invited_users := invited_users s; welcomed_users := welcomed_users s ∪ {[u]};
     rules_event_ids := rules_event_ids s; join_count := join_count s;
     initial_sync_done := initial_sync_done s;
     world := world s; trace := trace s |}.

Definition add_rules_event_id (ev : pystr) (s : Sys) : Sys :=
  {| invited_users := invited_users s; welcomed_users := welcomed_users s;
     rules_event_ids := rules_event_ids s ∪ {[ev]}; join_count := join_count s;
     initial_sync_done := initial_sync_done s;
     world := world s; trace := trace s |}.

Definition set_join_count (n : Z) (s : Sys) : Sys :=
  {| invited_users := invited_users s; welcomed_users := welcomed_users s;
     rules_event_ids := rules_event_ids s; join_count := n;
     initial_sync_done := initial_sync_done s;
     world := world s; trace := trace s |}.

Definition set_initial_sync_done (b : bool) (s : Sys) : Sys :=
  {| invited_users := invited_users s; welcomed_users := welcomed_users s;
     rules_event_ids := rules_event_ids s; join_count := join_count s;
     initial_sync_done := b;
     world := world s; trace := trace s |}.

(** *** Client calls: ask the transport, record call and answer *)

Definition client_room_invite (room user : pystr) : M InviteResp := fun s =>
  let (r, w) := room_invite transport (world s) room user in
  (r, record (Room_invite room user r) w s).

Definition client_room_create (invite : pystr) : M CreateResp := fun s =>
  let (r, w) := room_create transport (world s) invite in
  (r, record (Room_create invite r) w s).

Definition client_room_send (room : pystr) (content : Content) : M SendResp := fun s =>
  let (r, w) := room_send transport (world s) room content in
  (r, record (Room_send room content r) w s).

Definition make_content (message html : pystr) : Content :=
  {| body := message;
     formatted_body := if truthy html then Some html else None |}.

(** *** [send_dm] (l. 60-87) *)

Definition send_dm (user message html : pystr) : M bool :=
  enter (Send_dm user message html);;
  try_except
    (create_resp ← client_room_create user;
     match create_resp with
     | CreateOther => mret false
     | RoomCreateResponse dm_room =>
         send_resp ← client_room_send dm_room (make_content message html);
         match send_resp with
         | RoomSendResponse _ => mret true
         | SendOther => mret false
         end
     end)
    (fun _ => mret false).

(** *** [post_rules] (l. 104-126) *)

Definition post_rules : M unit :=
  enter Post_rules;;
  if negb (truthy (RULES_TEXT cfg)) then mret tt
  else
    send_resp ← client_room_send (TARGET_ROOM_ID cfg)
                  (make_content (RULES_TEXT cfg) (RULES_HTML cfg));
    match send_resp with
    | RoomSendResponse event_id => modify (add_rules_event_id event_id)
    | SendOther => mret tt
    end.

(** *** [send_welcome_dm] (l. 128-140) *)

Definition send_welcome_dm (user : pystr) : M unit :=
  enter (Send_welcome_dm user);;
  s ← get;
  if str_eq user (user_id cfg) then mret tt
  else if bool_decide (user ∈ welcomed_users s) then mret tt
  else if negb (truthy (WELCOME_TEXT cfg)) then mret tt
  else
    modify (add_welcomed user);;
    _ ← send_dm user (WELCOME_TEXT cfg) (WELCOME_HTML cfg);
    mret tt.

(** *** [send_tips_dm] (l. 142-151) *)

Definition send_tips_dm (user : pystr) : M unit :=
  enter (Send_tips_dm user);;
  if str_eq user (user_id cfg) then mret tt
  else if negb (truthy (TIPS_TEXT cfg)) then mret tt
  else
    _ ← send_dm user (TIPS_TEXT cfg) (TIPS_HTML cfg);
    mret tt.

(** *** [handle_invite] (l. 153-176) *)

Definition ALREADY_IN_THE_ROOM : pystr := py "already in the room".

(** The [try] statement: [true] when control falls through to l. 175,
    [false] on the [return] of l. 173. *)
Definition try_invite (user : pystr) : M bool :=
  try_except
    (_ ← client_room_invite (INVITE_SPACE_ID cfg) user;
     mret true)
    (fun e => mret (contains ALREADY_IN_THE_ROOM (str_lower (exn_str e)))).

Definition handle_invite (user : pystr) : M unit :=
  enter (Handle_invite user);;
  s ← get;
  if str_eq user (user_id cfg) then mret tt
  else if bool_decide (user ∈ invited_users s) then mret tt
  else
    proceed ← try_invite user;
    if negb proceed then mret tt
    else
      modify (add_invited user);;
      send_tips_dm user.

(** *** [on_member_event] (l. 178-197) *)

Definition on_member_event (room : MatrixRoom) (event : RoomMemberEvent.t) : M unit :=
  s ← get;
  if negb (initial_sync_done s) then mret tt
  else if negb (str_eq (room_id room) (TARGET_ROOM_ID cfg)) then mret tt
  else if negb (str_eq (RoomMemberEvent.membership event) (py "join")) then mret tt
  else if str_eq (RoomMemberEvent.sender event) (user_id cfg) then mret tt
  else
    modify (fun s => set_join_count (join_count s + 1) s);;
    s ← get;
    (if (join_count s >=? REPOST_EVERY_N_JOINS cfg)%Z
     then modify (set_join_count 0);; post_rules
     else mret tt);;
    send_welcome_dm (RoomMemberEvent.sender event).

(** *** [on_reaction_event] (l. 199-211) *)

Definition on_reaction_event (room : MatrixRoom) (event : ReactionEvent.t) : M unit :=
  if negb (str_eq (room_id room) (TARGET_ROOM_ID cfg)) then mret tt
  else
    let reacts_to := ReactionEvent.reacts_to event in
    let key := default [] (ReactionEvent.key event) in
    s ← get;
    if negb (match reacts_to with
             | Some target => bool_decide (target ∈ rules_event_ids s)
             | None => false
             end) then mret tt
    else if negb (is_checkmark key) then mret tt
    else handle_invite (ReactionEvent.sender event).

(** *** [on_unknown_event] (l. 213-226) *)

(** [v.get(key, dflt)]: defined on dicts only. *)
Definition py_get (v : json) (key : pystr) (dflt : json) : M json :=
  match v with
  | JDict d => mret (default dflt (assoc key d))
  | _ => raise (AttributeError (type_name v) (py "get"))
  end.

(** [v in rules_event_ids]: lists and dicts cannot be hashed, any other
    value that is not a string is simply not a member. *)
Definition in_rules_event_ids (v : json) : M bool :=
  s ← get;
  match v with
  | JStr target => mret (bool_decide (target ∈ rules_event_ids s))
  | JList _ | JDict _ => raise (Unhashable (type_name v))
  | JNull | JBool _ | JNum _ => mret false
  end.

(** [is_checkmark(v)]: its first step is [v.replace(..)]. *)
Definition is_checkmark_of (v : json) : M bool :=
  match v with
  | JStr k => mret (is_checkmark k)
  | _ => raise (AttributeError (type_name v) (py "replace"))
  end.

Definition on_unknown_event (room : MatrixRoom) (event : UnknownEvent.t) : M unit :=
  if negb (str_eq (room_id room) (TARGET_ROOM_ID cfg)) then mret tt
  else if negb (str_eq (UnknownEvent.type event) (py "m.reaction")) then mret tt
  else
    content ← py_get (JDict (UnknownEvent.source event)) (py "content") (JDict []);
    relates_to ← py_get content (py "m.relates_to") (JDict []);
    target ← py_get relates_to (py "event_id") JNull;
    tracked ← in_rules_event_ids target;
    if negb tracked then mret tt
    else
      reaction_key ← py_get relates_to (py "key") (JStr []);
      checkmark ← is_checkmark_of reaction_key;
      if negb checkmark then mret tt
      else handle_invite (UnknownEvent.sender event).

(** *** The callbacks registered at l. 228-230 *)

Definition dispatch (d : MatrixRoom * Event) : M unit :=
  match snd d with
  | Member e => on_member_event (fst d) e
  | Reaction e => on_reaction_event (fst d) e
  | Unknown e => on_unknown_event (fst d) e
  | Other => mret tt
  end.

(** The callbacks of one [client.sync], run on the events of the batch in
    order; an exception leaves the call and the rest of the batch.  A
    failure of the call itself, with no callback involved, is not part of
    this definition. *)
Fixpoint sync (batch : list (MatrixRoom * Event)) : M unit :=
  match batch with
  | [] => mret tt
  | d :: batch' => dispatch d;; sync batch'
  end.

(** The [while True] loop of l. 257-262, for as many rounds as there are
    batches.  A [client.sync] that fails by itself is caught at l. 260 like
    a callback's exception: its batch holds the events handled before. *)
Fixpoint sync_loop (batches : list (list (MatrixRoom * Event))) : M unit :=
  match batches with
  | [] => mret tt
  | batch :: batches' =>
      try_except (sync batch) (fun _ => mret tt);;
      sync_loop batches'
  end.

(** Events handled one after the other, each to its return or exception. *)
Definition deliver (events : list (MatrixRoom * Event)) : M unit :=
  sync_loop (map (fun d => [d]) events).

(** The loop of l. 242-247 over [client.rooms]. *)
Fixpoint seed_welcomed (rooms : list MatrixRoom) : M unit :=
  match rooms with
  | [] => mret tt
  | room :: rooms' =>
      let members := users room in
      (if Nat.eqb (length members) 2 && bool_decide (user_id cfg ∈ members)
       then
         match filter (fun u => u ≠ user_id cfg) members with
         | other :: _ => modify (add_welcomed other)
         | [] => mret tt
         end
       else mret tt);;
      seed_welcomed rooms'
  end.

Definition initial (w : W) : Sys :=
  {| invited_users := ∅; welcomed_users := ∅;
     rules_event_ids := {[ TARGET_EVENT_ID cfg ]};
     join_count := 0; initial_sync_done := false;
     world := w; trace := [] |}.

(** [main] from l. 98 on, [client.whoami] having answered with
    [user_id cfg]: the full-state sync delivers [first] and, when no
    callback raises, returns; [rooms] is [client.rooms] after it, [batches]
    are the later syncs. *)
Definition main (first : list (MatrixRoom * Event)) (rooms : list MatrixRoom)
    (batches : list (list (MatrixRoom * Event))) (w : W) : outcome unit * Sys :=
  (sync first;;
   modify (set_initial_sync_done true);;
   seed_welcomed rooms;;
   (if truthy (RULES_TEXT cfg) then post_rules else mret tt);;
   sync_loop batches) (initial w).

End Engine.

(** ** Reading the trace *)

Fixpoint count (p : Effect -> bool) (tr : list Effect) : nat :=
  match tr with
  | [] => 0
  | e :: tr' => (if p e then 1 else 0) + count p tr'
  end.

(** A call of [client.room_invite]. *)
Definition is_invite_call (e : Effect) : bool :=
  match e with Room_invite _ _ _ => true | _ => false end.

(** A call of [client.room_invite] for [user]. *)
Definition is_invite_of (user : pystr) (e : Effect) : bool :=
  match e with Room_invite _ u _ => str_eq u user | _ => false end.

(** A call of [client.room_invite] for [user] that [handle_invite] does not
    leave through the [return] of l. 173. *)
Definition is_kept_invite_of (str_lower : pystr -> pystr) (user : pystr) (e : Effect) : bool :=
  match e with
  | Room_invite _ u (Returned _) => str_eq u user
  | Room_invite _ u (Raised x) =>
      str_eq u user && contains ALREADY_IN_THE_ROOM (str_lower (exn_str x))
  | _ => false
  end.

Definition is_tips_of (user : pystr) (e : Effect) : bool :=
  match e with Enter (Send_tips_dm u) => str_eq u user | _ => false end.

Definition is_repost (e : Effect) : bool :=
  match e with Enter Post_rules => true | _ => false end.

Definition is_welcome_of (user : pystr) (e : Effect) : bool :=
  match e with Enter (Send_welcome_dm u) => str_eq u user | _ => false end.

(** A call of [client.room_create] that invites [user]. *)
Definition is_dm_room_for (user : pystr) (e : Effect) : bool :=
  match e with Room_create u _ => str_eq u user | _ => false end.

(** Once [u] is invited: [u] stays invited, and the trace gains no invite
    call for [u] and no tips DM for [u]. *)
Definition settled {W : Type} (u : pystr) (s s' : @Sys W) : Prop :=
  u ∈ invited_users s ->
  u ∈ invited_users s' /\
  count (is_invite_of u) (trace s') = count (is_invite_of u) (trace s) /\
  count (is_tips_of u) (trace s') = count (is_tips_of u) (trace s).

(** Ledger and trace agree on [u]: at most one kept invite call, and none
    while [u] is not in [invited_users]. *)
Definition ledger_ok {W : Type} (str_lower : pystr -> pystr) (u : pystr) (s : @Sys W) : Prop :=
  (u ∈ invited_users s -> count (is_kept_invite_of str_lower u) (trace s) <= 1) /\
  (u ∉ invited_users s -> count (is_kept_invite_of str_lower u) (trace s) = 0).

(** ** The spec's vocabulary *)

(** The key without the two variation selectors. *)
Definition strip_selectors (s : pystr) : pystr :=
  List.filter (fun c => negb (N.eqb c 0xfe0e%N) && negb (N.eqb c 0xfe0f%N)) s.

(** One of the three canonical glyphs U+2705, U+2714, U+2611. *)
Definition canonical (s : pystr) : Prop :=
  s = [0x2705%N] \/ s = [0x2714%N] \/ s = [0x2611%N].

(** The guards of [on_member_event] on room, membership and sender. *)
Definition is_join (cfg : Config) (d : MatrixRoom * Event) : bool :=
  match snd d with
  | Member e =>
      str_eq (room_id (fst d)) (TARGET_ROOM_ID cfg)
      && str_eq (RoomMemberEvent.membership e) (py "join")
      && negb (str_eq (RoomMemberEvent.sender e) (user_id cfg))
  | _ => false
  end.

(** A member event of a user who was joined already: a change of display
    name or avatar. *)
Definition profile_only (e : RoomMemberEvent.t) : bool :=
  str_eq (RoomMemberEvent.membership e) (py "join")
  && bool_decide (RoomMemberEvent.prev_membership e = Some (py "join")).

(** The counter after one more join: l. 190-194. *)
Definition bump (cfg : Config) (c : Z) : Z :=
  if (c + 1 >=? REPOST_EVERY_N_JOINS cfg)%Z then 0%Z else (c + 1)%Z.

Definition is_member (d : MatrixRoom * Event) : bool :=
  match snd d with Member _ => true | _ => false end.

(** The shape both reaction forms are read as. *)
Record Payload := { actor : pystr; target : option pystr; reaction_key : pystr }.

Definition reaction_payload (e : ReactionEvent.t) : Payload :=
  {| actor := ReactionEvent.sender e;
     target := ReactionEvent.reacts_to e;
     reaction_key := default [] (ReactionEvent.key e) |}.

Definition as_dict (v : json) : option (list (pystr * json)) :=
  match v with JDict d => Some d | _ => None end.

(** [content["m.relates_to"]] of an untyped event, when both are dicts
    (a missing key reads as the empty dict). *)
Definition relates_to_of (e : UnknownEvent.t) : option (list (pystr * json)) :=
  content ← as_dict (default (JDict []) (assoc (py "content") (UnknownEvent.source e)));
  as_dict (default (JDict []) (assoc (py "m.relates_to") content)).

(** The message an untyped event points at, when it names one. *)
Definition unknown_target (e : UnknownEvent.t) : option pystr :=
  relates ← relates_to_of e;
  match assoc (py "event_id") relates with
  | Some (JStr t) => Some t
  | _ => None
  end.

(** The payload of an untyped [m.reaction] event whose fields are strings
    (or missing, or a null target). *)
Definition unknown_payload (e : UnknownEvent.t) : option Payload :=
  if str_eq (UnknownEvent.type e) (py "m.reaction") then
    relates ← relates_to_of e;
    tgt ← match default JNull (assoc (py "event_id") relates) with
          | JStr t => Some (Some t)
          | JNull => Some None
          | _ => None
          end;
    k ← match default (JStr []) (assoc (py "key") relates) with
        | JStr k => Some k
        | _ => None
        end;
    Some {| actor := UnknownEvent.sender e; target := tgt; reaction_key := k |}
  else None.

(** [d] delivers the reaction [e] in [room]: as a [ReactionEvent], or as an
    [UnknownEvent] whose payload reads the same. *)
Definition delivers (room : MatrixRoom) (e : ReactionEvent.t)
    (d : MatrixRoom * Event) : Prop :=
  d = (room, Reaction e) \/
  exists u, d = (room, Unknown u) /\ unknown_payload u = Some (reaction_payload e).

(** ** A concrete setting for examples *)

(** A transport that answers from three scripts and with success once a
    script is used up. *)
Record Script := {
  invites : list (outcome InviteResp);
  creates : list (outcome CreateResp);
  sends : list (outcome SendResp)
}.

Definition scripted : Transport Script :=
  {| room_invite w _ _ :=
       match invites w with
       | r :: rs => (r, {| invites := rs; creates := creates w; sends := sends w |})
       | [] => (Returned {| message := None |}, w)
       end;
     room_create w _ :=
       match creates w with
       | r :: rs => (r, {| invites := invites w; creates := rs; sends := sends w |})
       | [] => (Returned (RoomCreateResponse (py "!dm:example.org")), w)
       end;
     room_send w _ _ :=
       match sends w with
       | r :: rs => (r, {| invites := invites w; creates := creates w; sends := rs |})
       | [] => (Returned (RoomSendResponse (py "$sent")), w)
       end |}.

Definition no_script : Script := {| invites := []; creates := []; sends := [] |}.

(** [str.lower] on ASCII letters. *)
Definition ascii_lower (s : pystr) : pystr :=
  map (fun c => if (N.leb 65 c && N.leb c 90)%N then (c + 32)%N else c) s.

Definition example_cfg (threshold : Z) : Config :=
  {| TARGET_ROOM_ID := py "!rules:example.org";
     TARGET_EVENT_ID := py "$rules";
     INVITE_SPACE_ID := py "!space:example.org";
     REPOST_EVERY_N_JOINS := threshold;
     RULES_TEXT := py "Rules";
     RULES_HTML := [];
     WELCOME_TEXT := py "Welcome";
     WELCOME_HTML := [];
     TIPS_TEXT := py "Tips";
     TIPS_HTML := [];
     user_id := py "@bot:example.org" |}.

Definition rules_room : MatrixRoom :=
  {| room_id := py "!rules:example.org";
     users := [py "@bot:example.org"; py "@alice:example.org"; py "@bob:example.org"] |}.

Definition alice : pystr := py "@alice:example.org".

Definition bob : pystr := py "@bob:example.org".

(** alice reacts with U+2705 to the configured rules message. *)
Definition alice_accepts : ReactionEvent.t :=
  {| ReactionEvent.sender := alice;
     ReactionEvent.reacts_to := Some (py "$rules");
     ReactionEvent.key := Some [0x2705%N] |}.

(** The same reaction as an untyped event. *)
Definition alice_accepts_untyped : UnknownEvent.t :=
  {| UnknownEvent.sender := alice;
     UnknownEvent.type := py "m.reaction";
     UnknownEvent.source :=
       [(py "content",
         JDict [(py "m.relates_to",
                 JDict [(py "rel_type", JStr (py "m.annotation"));
                        (py "event_id", JStr (py "$rules"));
                        (py "key", JStr [0x2705%N])])])] |}.

Definition alice_joins : RoomMemberEvent.t :=
  {| RoomMemberEvent.sender := alice;
     RoomMemberEvent.membership := py "join";
     RoomMemberEvent.prev_membership := None |}.

(** alice, already joined, changes display name. *)
Definition alice_renames : RoomMemberEvent.t :=
  {| RoomMemberEvent.sender := alice;
     RoomMemberEvent.membership := py "join";
     RoomMemberEvent.prev_membership := Some (py "join") |}.

Definition bob_joins : RoomMemberEvent.t :=
  {| RoomMemberEvent.sender := bob;
     RoomMemberEvent.membership := py "join";
     RoomMemberEvent.prev_membership := Some (py "invite") |}.

(** alice puts a checkmark on a message that is not a rules message. *)
Definition alice_accepts_elsewhere : ReactionEvent.t :=
  {| ReactionEvent.sender := alice;
     ReactionEvent.reacts_to := Some (py "$chatter");
     ReactionEvent.key := Some [0x2705%N] |}.

(** The homeserver refuses the invite: nio returns an error response. *)
Definition forbidden : InviteResp :=
  {| message := Some (py "M_FORBIDDEN: inviter lacks the power level") |}.

Definition refusing : Script :=
  {| invites := [Returned forbidden]; creates := []; sends := [] |}.

(** The first invite call fails on the network, later ones succeed. *)
Definition flaky : Script :=
  {| invites := [Raised (TransportError (py "Cannot connect to host"))];
     creates := []; sends := [] |}.

(** The startup post and one DM go through, the third [room_send] raises. *)
Definition repost_fails : Script :=
  {| invites := []; creates := [];
     sends := [Returned (RoomSendResponse (py "$startup"));
               Returned (RoomSendResponse (py "$welcome"));
               Raised (TransportError (py "Cannot connect to host"))] |}.

(** Every [room_send] of a run with two welcome DMs and one repost gets an
    event id of its own. *)
Definition fresh_ids : Script :=
  {| invites := []; creates := [];
     sends := [Returned (RoomSendResponse (py "$startup"));
               Returned (RoomSendResponse (py "$dm-alice"));
               Returned (RoomSendResponse (py "$dm-bob"));
               Returned (RoomSendResponse (py "$repost"))] |}.

(** The invite call finds alice in the space already. *)
Definition already_there : Script :=
  {| invites := [Raised (TransportError
                           (py "M_FORBIDDEN: @alice:example.org is already in the room."))];
     creates := []; sends := [] |}.

(** alice reacts with U+1F44D to the configured rules message. *)
Definition alice_thumbs_up : ReactionEvent.t :=
  {| ReactionEvent.sender := alice;
     ReactionEvent.reacts_to := Some (py "$rules");
     ReactionEvent.key := Some [0x1f44d%N] |}.

(** An untyped reaction of alice on a message that is not tracked. *)
Definition alice_accepts_elsewhere_untyped : UnknownEvent.t :=
  {| UnknownEvent.sender := alice;
     UnknownEvent.type := py "m.reaction";
     UnknownEvent.source :=
       [(py "content",
         JDict [(py "m.relates_to",
                 JDict [(py "event_id", JStr (py "$chatter"));
                        (py "key", JStr [0x2705%N])])])] |}.

(** A direct room of the bot and bob, left from an earlier run. *)
Definition dm_with_bob : MatrixRoom :=
  {| room_id := py "!dm-bob:example.org";
     users := [py "@bot:example.org"; py "@bob:example.org"] |}.

Definition five_joins : list (MatrixRoom * Event) :=
  [(rules_room, Member alice_joins); (rules_room, Member bob_joins);
   (rules_room, Member alice_joins); (rules_room, Member bob_joins);
   (rules_room, Member alice_joins)].

(** The state once [main] has reached its loop, nothing delivered yet. *)
Definition started (threshold : Z) (w : Script) : Sys :=
  snd (main scripted (example_cfg threshold) ascii_lower [] [rules_room] [] w).

(** ** Loading the texts (l. 38-51) *)

(** [str.isspace] on one code point: the characters [str.strip()] removes. *)
Definition is_space (c : N) : bool :=
  ((9 <=? c) && (c <=? 13) || (28 <=? c) && (c <=? 32) || (c =? 0x85) || (c =? 0xa0)
   || (c =? 0x1680) || (0x2000 <=? c) && (c <=? 0x200a) || (c =? 0x2028)
   || (c =? 0x2029) || (c =? 0x202f) || (c =? 0x205f) || (c =? 0x3000))%N.

Fixpoint lstrip (s : pystr) : pystr :=
  match s with
  | [] => []
  | c :: s' => if is_space c then lstrip s' else s
  end.

Definition rstrip (s : pystr) : pystr := rev (lstrip (rev s)).

(** [s.strip()]. *)
Definition strip (s : pystr) : pystr := rstrip (lstrip s).

(** Why [open] or [f.read()] raises on a path that exists. *)
Inductive load_error :=
| IsADirectoryError                 (* the path names a directory *)
| PermissionError                   (* the file may not be read *)
| UnicodeDecodeError                (* its bytes are no text in the locale's encoding *)
| OtherError (name : pystr).        (* any other exception, by the name of its class *)

(** What a path that exists names: a file, with the string [f.read()]
    returns for it (text mode: the bytes decoded, every line ending read as
    one line feed), or something [open] or [f.read()] raises on. *)
Inductive node :=
| File (text : pystr)
| Unreadable (e : load_error).

(** A load returns the text or is left by the exception. *)
Inductive loaded :=
| Text (text : pystr)
| Raises (e : load_error).

(** [fs] holds the paths [os.path.exists] is true for, [environ] is
    [os.environ]. *)
Definition _load_text (fs : gmap pystr node) (environ : gmap pystr pystr)
    (file_path env_var : pystr) : loaded :=
  match fs !! file_path with
  | Some (File text) => Text (strip text)
  | Some (Unreadable e) => Raises e
  | None => Text (default [] (environ !! env_var))
  end.

(** The module as it is imported: the constants are set, or an exception
    leaves the module and [main] is never run. *)
Inductive module_load :=
| Loaded (cfg : Config)
| ModuleRaises (e : load_error).

Definition then_load (l : loaded) (k : pystr -> module_load) : module_load :=
  match l with
  | Text text => k text
  | Raises e => ModuleRaises e
  end.

(** The six loads of l. 46-51, in their order.  [base] holds the constants
    of l. 29-35 and [client.user_id]; its texts are not read. *)
Definition load_texts (fs : gmap pystr node) (environ : gmap pystr pystr)
    (base : Config) : module_load :=
  then_load (_load_text fs environ (py "/app/rules.txt") (py "RULES_TEXT")) (fun rules_text =>
  then_load (_load_text fs environ (py "/app/rules.html") (py "RULES_HTML")) (fun rules_html =>
  then_load (_load_text fs environ (py "/app/welcome.txt") (py "WELCOME_TEXT")) (fun welcome_text =>
  then_load (_load_text fs environ (py "/app/welcome.html") (py "WELCOME_HTML")) (fun welcome_html =>
  then_load (_load_text fs environ (py "/app/tips.txt") (py "TIPS_TEXT")) (fun tips_text =>
  then_load (_load_text fs environ (py "/app/tips.html") (py "TIPS_HTML")) (fun tips_html =>
  Loaded {| TARGET_ROOM_ID := TARGET_ROOM_ID base;
            TARGET_EVENT_ID := TARGET_EVENT_ID base;
            INVITE_SPACE_ID := INVITE_SPACE_ID base;
            REPOST_EVERY_N_JOINS := REPOST_EVERY_N_JOINS base;
            RULES_TEXT := rules_text;
            RULES_HTML := rules_html;
            WELCOME_TEXT := welcome_text;
            WELCOME_HTML := welcome_html;
            TIPS_TEXT := tips_text;
            TIPS_HTML := tips_html;
            user_id := user_id base |})))))).

(** ** The run after the first sync (l. 238-262) *)

(** [main] from the point where the [client.sync] of l. 237 has returned:
    the flag, the loop over [client.rooms], the startup post and the
    [while] loop. *)
Definition after_first_sync {W : Type} (transport : Transport W) (cfg : Config)
    (str_lower : pystr -> pystr) (rooms : list MatrixRoom)
    (batches : list (list (MatrixRoom * Event))) : M unit :=
  modify (set_initial_sync_done true);;
  seed_welcomed cfg rooms;;
  (if truthy (RULES_TEXT cfg) then post_rules transport cfg else mret tt);;
  sync_loop transport cfg str_lower batches.

(** ** More readings of the trace *)

Definition is_room_send (e : Effect) : bool :=
  match e with Room_send _ _ _ => true | _ => false end.

(** A call of the client, as opposed to an [Enter] mark. *)
Definition is_client_call (e : Effect) : bool :=
  match e with Enter _ => false | _ => true end.

(** An invite into a room other than [INVITE_SPACE_ID]. *)
Definition is_invite_elsewhere (cfg : Config) (e : Effect) : bool :=
  match e with
  | Room_invite room _ _ => negb (str_eq room (INVITE_SPACE_ID cfg))
  | _ => false
  end.

(** The content [post_rules] sends. *)
Definition rules_content (cfg : Config) : Content :=
  make_content (RULES_TEXT cfg) (RULES_HTML cfg).

(** [t] is the id the server returned for a rules post of this run. *)
Definition posted (cfg : Config) (t : pystr) (tr : list Effect) : Prop :=
  In (Room_send (TARGET_ROOM_ID cfg) (rules_content cfg)
        (Returned (RoomSendResponse t))) tr.

(** Every tracked id is the configured one or was returned for a rules
    post. *)
Definition sourced {W : Type} (cfg : Config) (s : @Sys W) : Prop :=
  forall t, t ∈ rules_event_ids s -> t = TARGET_EVENT_ID cfg \/ posted cfg t (trace s).

(** One DM room for the welcome, one for the tips. *)
Definition dm_budget {W : Type} (u : pystr) (s : @Sys W) : nat :=
  (if bool_decide (u ∈ welcomed_users s) then 1 else 0)
  + (if bool_decide (u ∈ invited_users s) then 1 else 0).

(** The counter is below the threshold, or at zero when the threshold is
    not positive. *)
Definition in_range {W : Type} (cfg : Config) (s : @Sys W) : Prop :=
  (0 <= join_count s < Z.max 1 (REPOST_EVERY_N_JOINS cfg))%Z.

(** The bot's own id is in neither ledger and no invite or DM room was
    ever requested for it. *)
Definition never_self {W : Type} (cfg : Config) (s : @Sys W) : Prop :=
  (user_id cfg ∉ invited_users s) /\
  (user_id cfg ∉ welcomed_users s) /\
  count (is_invite_of (user_id cfg)) (trace s) = 0 /\
  count (is_dm_room_for (user_id cfg)) (trace s) = 0.

(** The other member of a two-member room the bot is in. *)
Definition dm_partner (cfg : Config) (room : MatrixRoom) (u : pystr) : Prop :=
  length (users room) = 2 /\ user_id cfg ∈ users room /\
  u ∈ users room /\ u ≠ user_id cfg.

(** The five variables of [main] agree in two states. *)
Definition same_ledger {W : Type} (s s' : @Sys W) : Prop :=
  invited_users s' = invited_users s /\
  welcomed_users s' = welcomed_users s /\
  rules_event_ids s' = rules_event_ids s /\
  join_count s' = join_count s /\
  initial_sync_done s' = initial_sync_done s.

Definition is_unknown (d : MatrixRoom * Event) : bool :=
  match snd d with Unknown _ => true | _ => false end.

(** *** More of the concrete setting *)

(** The room cannot be created. *)
Definition no_dm_room : Script :=
  {| invites := [];
     creates := [Raised (TransportError (py "Cannot connect to host"))];
     sends := [] |}.

Definition example_fs : gmap pystr node :=
  {[ py "/app/rules.txt" := File (py " Be kind.
") ;
     py "/app/tips.txt" := File (py "  
") ;
     py "/app/data" := Unreadable IsADirectoryError ]}.

(** A rules file left blank, next to an environment that sets the text. *)
Definition blank_rules_fs : gmap pystr node :=
  {[ py "/app/rules.txt" := File (py "  
") ]}.

(** No file at all, and a variable that holds one space. *)
Definition space_environ : gmap pystr pystr :=
  {[ py "RULES_TEXT" := py " " ]}.

(** What [load_texts blank_rules_fs example_environ] leaves. *)
Definition blank_rules_cfg : Config :=
  {| TARGET_ROOM_ID := py "!rules:example.org";
     TARGET_EVENT_ID := py "$rules";
     INVITE_SPACE_ID := py "!space:example.org";
     REPOST_EVERY_N_JOINS := 1;
     RULES_TEXT := [];
     RULES_HTML := [];
     WELCOME_TEXT := py " hello ";
     WELCOME_HTML := [];
     TIPS_TEXT := py "tips from the environment";
     TIPS_HTML := [];
     user_id := py "@bot:example.org" |}.

(** What [load_texts ∅ space_environ] leaves. *)
Definition space_rules_cfg : Config :=
  {| TARGET_ROOM_ID := py "!rules:example.org";
     TARGET_EVENT_ID := py "$rules";
     INVITE_SPACE_ID := py "!space:example.org";
     REPOST_EVERY_N_JOINS := 1;
     RULES_TEXT := py " ";
     RULES_HTML := [];
     WELCOME_TEXT := [];
     WELCOME_HTML := [];
     TIPS_TEXT := [];
     TIPS_HTML := [];
     user_id := py "@bot:example.org" |}.

Definition example_environ : gmap pystr pystr :=
  {[ py "RULES_TEXT" := py "from the environment" ;
     py "TIPS_TEXT" := py "tips from the environment" ;
     py "WELCOME_TEXT" := py " hello " ]}.

(** An untyped reaction whose [m.relates_to] is a string. *)
Definition malformed_reaction : UnknownEvent.t :=
  {| UnknownEvent.sender := alice;
     UnknownEvent.type := py "m.reaction";
     UnknownEvent.source :=
       [(py "content", JDict [(py "m.relates_to", JStr (py "$rules"))])] |}.

(** alice puts a checkmark on the rules post of the startup. *)
Definition alice_accepts_repost : ReactionEvent.t :=
  {| ReactionEvent.sender := alice;
     ReactionEvent.reacts_to := Some (py "$startup");
     ReactionEvent.key := Some [0x2714%N; 0xfe0f%N] |}.

(** The first [room_send] of the run raises. *)
Definition startup_fails : Script :=
  {| invites := []; creates := [];
     sends := [Raised (TransportError (py "Cannot connect to host"))] |}.

Definition lobby : MatrixRoom :=
  {| room_id := py "!lobby:example.org"; users := [py "@bot:example.org"; alice; bob] |}.

(** ** Proof automation *)

Ltac unfold_m :=
  unfold mbind, mret, M_bind, M_ret, get, modify, raise, try_except, enter,
    client_room_invite, client_room_create, client_room_send in *.

Ltac unfold_handlers :=
  unfold dispatch, on_member_event, on_reaction_event, on_unknown_event,
    handle_invite, try_invite, send_welcome_dm, send_tips_dm, post_rules,
    send_dm, py_get, in_rules_event_ids, is_checkmark_of in *;
  unfold_m.

(** Case analysis on the innermost scrutinee of the goal. *)
Ltac split_match :=
  match goal with
  | |- context [match ?x with _ => _ end] =>
      lazymatch x with
      | context [match _ with _ => _ end] => fail
      | _ => destruct x eqn:?
      end
  end.

Ltac crunch := repeat (simpl; split_match); simpl.

Ltac reflect_hyps :=
  repeat match goal with
  | H : bool_decide _ = true |- _ => apply bool_decide_eq_true in H
  | H : bool_decide _ = false |- _ => apply bool_decide_eq_false in H
  | H : negb _ = true |- _ => apply negb_true_iff in H
  | H : negb _ = false |- _ => apply negb_false_iff in H
  end.

Ltac use_eqns :=
  repeat match goal with
  | H : contains _ _ = _ |- _ => rewrite H
  end.

(** A decidable proposition on closed terms, settled by evaluation. *)
Ltac by_compute :=
  lazymatch goal with
  | |- ~ ?P => apply (bool_decide_eq_false_1 P); vm_compute; reflexivity
  | |- ?P => apply (bool_decide_eq_true_1 P); vm_compute; reflexivity
  end.

(** * Properties *)

(** ** Strings and the classifier *)

Lemma replace1_app old new a b :
  replace1 old new (a ++ b) = replace1 old new a ++ replace1 old new b.
Proof. unfold replace1. apply flat_map_app. Qed.

Lemma strip_is_replace key :
  replace1 0xfe0f%N [] (replace1 0xfe0e%N [] key) = strip_selectors key.
Proof.
  induction key as [|c key IH]; [reflexivity|].
  change (c :: key) with ([c] ++ key).
  rewrite !replace1_app, IH. simpl.
  destruct (N.eqb c 0xfe0e%N) eqn:E1; simpl; [reflexivity|].
  destruct (N.eqb c 0xfe0f%N) eqn:E2; reflexivity.
Qed.

Lemma elem_of_CHECKMARKS s : s ∈ CHECKMARKS <-> canonical s.
Proof.
  unfold CHECKMARKS, canonical.
  rewrite !elem_of_union, !elem_of_singleton. tauto.
Qed.

Lemma is_checkmark_true key : is_checkmark key = true <-> canonical (strip_selectors key).
Proof.
  unfold is_checkmark. rewrite strip_is_replace, bool_decide_eq_true.
  apply elem_of_CHECKMARKS.
Qed.

(** C7: the classifier is total; it answers true exactly when the key, with
    every U+FE0E and U+FE0F removed, is one of U+2705, U+2714, U+2611, and
    false on every other key, the empty one included. *)
Theorem is_checkmark_classifies :
  (forall key, is_checkmark key = true <-> canonical (strip_selectors key)) /\
  (forall key, is_checkmark key = false <-> ~ canonical (strip_selectors key)) /\
  is_checkmark [] = false.
Proof.
  split; [exact is_checkmark_true|]. split.
  - intros key. rewrite <- is_checkmark_true.
    destruct (is_checkmark key); split; congruence.
  - reflexivity.
Qed.

(** C8: a variation selector appended to a key never changes its class. *)
Theorem is_checkmark_selector_suffix s :
  is_checkmark (s ++ [0xfe0f%N]) = is_checkmark s /\
  is_checkmark (s ++ [0xfe0e%N]) = is_checkmark s.
Proof.
  unfold is_checkmark. rewrite !replace1_app. simpl.
  rewrite !app_nil_r. split; reflexivity.
Qed.

(** ** Traces and the monad *)

Lemma count_app p a b : count p (a ++ b) = count p a + count p b.
Proof. induction a as [|e a IH]; simpl; [reflexivity | rewrite IH; lia]. Qed.

Section Facts.

Context {W : Type}.
Variable transport : Transport W.
Variable cfg : Config.
Variable str_lower : pystr -> pystr.

(** *** Lifting a step property to batches, the loop and [main] *)

Section Lifting.

Variable R : @Sys W -> @Sys W -> Prop.
Hypothesis R_refl : forall s, R s s.
Hypothesis R_trans : forall a b c, R a b -> R b c -> R a c.

Lemma bind_lift {A B : Type} (m : M A) (f : A -> M B) :
  (forall s, R s (snd (m s))) ->
  (forall a s, R s (snd (f a s))) ->
  forall s, R s (snd ((m ≫= f) s)).
Proof.
  intros Hm Hf s. unfold mbind, M_bind.
  specialize (Hm s). destruct (m s) as [[a|e] s1]; simpl in *; [|exact Hm].
  eapply R_trans; [exact Hm | apply Hf].
Qed.

Lemma try_lift {A : Type} (m : M A) (h : exn -> M A) :
  (forall s, R s (snd (m s))) ->
  (forall e s, R s (snd (h e s))) ->
  forall s, R s (snd (try_except m h s)).
Proof.
  intros Hm Hh s. unfold try_except.
  specialize (Hm s). destruct (m s) as [[a|e] s1]; simpl in *; [exact Hm|].
  eapply R_trans; [exact Hm | apply Hh].
Qed.

Hypothesis R_dispatch : forall d s, R s (snd (dispatch transport cfg str_lower d s)).

Lemma sync_lift batch s : R s (snd (sync transport cfg str_lower batch s)).
Proof.
  revert s. induction batch as [|d batch IH]; intros s; simpl; [apply R_refl|].
  apply bind_lift; [apply R_dispatch | intros _; exact IH].
Qed.

Lemma sync_loop_lift batches s :
  R s (snd (sync_loop transport cfg str_lower batches s)).
Proof.
  revert s. induction batches as [|b batches IH]; intros s; simpl; [apply R_refl|].
  apply bind_lift; [|intros _; exact IH].
  apply try_lift; [apply sync_lift | intros; apply R_refl].
Qed.

Hypothesis R_flag : forall s, R s (set_initial_sync_done true s).
Hypothesis R_welcomed : forall u s, R s (add_welcomed u s).
Hypothesis R_post_rules : forall s, R s (snd (post_rules transport cfg s)).

Lemma seed_welcomed_lift rooms s : R s (snd (seed_welcomed cfg rooms s)).
Proof.
  revert s. induction rooms as [|room rooms IH]; intros s; simpl; [apply R_refl|].
  apply bind_lift; [|intros _; exact IH].
  intros s0. repeat split_match; simpl; auto.
Qed.

Lemma main_lift first rooms batches w :
  R (initial cfg w) (snd (main transport cfg str_lower first rooms batches w)).
Proof.
  unfold main.
  apply bind_lift; [apply sync_lift | intros _].
  apply bind_lift; [intros s; apply R_flag | intros _].
  apply bind_lift; [apply seed_welcomed_lift | intros _].
  apply bind_lift; [|intros _; apply sync_loop_lift].
  intros s. destruct (truthy (RULES_TEXT cfg)); [apply R_post_rules | apply R_refl].
Qed.

End Lifting.

(** *** What every handler preserves *)

Lemma dispatch_invited_mono d s :
  invited_users s ⊆ invited_users (snd (dispatch transport cfg str_lower d s)).
Proof.
  destruct d as [room [e|e|e|]]; unfold_handlers; crunch;
    first [reflexivity | apply union_subseteq_l].
Qed.

Lemma post_rules_rules_mono s :
  rules_event_ids s ⊆ rules_event_ids (snd (post_rules transport cfg s)).
Proof.
  unfold_handlers; crunch; first [reflexivity | apply union_subseteq_l].
Qed.

Lemma dispatch_rules_mono d s :
  rules_event_ids s ⊆ rules_event_ids (snd (dispatch transport cfg str_lower d s)).
Proof.
  destruct d as [room [e|e|e|]]; unfold_handlers; crunch;
    first [reflexivity | apply union_subseteq_l].
Qed.

Lemma dispatch_flag d s :
  initial_sync_done (snd (dispatch transport cfg str_lower d s)) = initial_sync_done s.
Proof.
  destruct d as [room [e|e|e|]]; unfold_handlers; crunch; reflexivity.
Qed.

Lemma settled_refl u (s : @Sys W) : settled u s s.
Proof. intros Hu. auto. Qed.

Lemma settled_trans u (a b c : @Sys W) : settled u a b -> settled u b c -> settled u a c.
Proof.
  intros Hab Hbc Hu. destruct (Hab Hu) as (Hb & E1 & E2).
  destruct (Hbc Hb) as (Hc & E3 & E4). repeat split; [assumption | lia | lia].
Qed.

Lemma dispatch_settled u d s : settled u s (snd (dispatch transport cfg str_lower d s)).
Proof.
  intros Hu.
  destruct d as [room [e|e|e|]]; unfold_handlers; crunch;
    (split; [first [assumption | apply elem_of_union_l; assumption]|]);
    rewrite ?count_app; simpl; unfold str_eq in *; reflect_hyps;
    repeat case_bool_decide; subst; simpl; try contradiction; split; lia.
Qed.

Lemma dispatch_ledger_ok u d s :
  ledger_ok str_lower u s ->
  ledger_ok str_lower u (snd (dispatch transport cfg str_lower d s)).
Proof.
  intros [Hin Hout].
  destruct (decide (u ∈ invited_users s)) as [Hu|Hu];
    [specialize (Hin Hu); clear Hout | specialize (Hout Hu); clear Hin].
  all: destruct d as [room [e|e|e|]]; unfold_handlers; crunch.
  all: unfold ledger_ok; simpl; rewrite ?count_app; simpl.
  all: unfold str_eq in *; reflect_hyps; try use_eqns.
  all: repeat case_bool_decide; subst; simpl;
       rewrite ?elem_of_union, ?elem_of_singleton; try contradiction.
  all: split; intros HH; first [lia | exfalso; tauto].
Qed.

Lemma post_rules_ledger_ok u s :
  ledger_ok str_lower u s -> ledger_ok str_lower u (snd (post_rules transport cfg s)).
Proof.
  intros [Hin Hout]. unfold_handlers; crunch.
  all: unfold ledger_ok; simpl; rewrite ?count_app; simpl.
  all: split; intros HH; [apply Hin in HH | apply Hout in HH]; lia.
Qed.

(** *** A qualifying join, once the initial sync is done *)

Lemma join_step d s :
  initial_sync_done s = true ->
  is_join cfg d = true ->
  let s' := snd (dispatch transport cfg str_lower d s) in
  initial_sync_done s' = true /\
  join_count s' = bump cfg (join_count s) /\
  count is_repost (trace s') =
    count is_repost (trace s)
    + (if (join_count s + 1 >=? REPOST_EVERY_N_JOINS cfg)%Z then 1 else 0).
Proof.
  intros Hdone Hjoin. destruct d as [room [e|e|e|]]; try discriminate.
  unfold is_join in Hjoin. simpl in Hjoin.
  apply andb_true_iff in Hjoin as [Hjoin Hbot].
  apply andb_true_iff in Hjoin as [Hroom Hmem].
  apply negb_true_iff in Hbot.
  unfold bump. unfold_handlers. simpl. rewrite Hdone, Hroom, Hmem, Hbot. simpl.
  destruct (join_count s + 1 >=? REPOST_EVERY_N_JOINS cfg)%Z; crunch;
    rewrite ?count_app; simpl; repeat split; try assumption; try lia.
Qed.


Lemma deliver_cons d events s :
  snd (deliver transport cfg str_lower (d :: events) s) =
  snd (deliver transport cfg str_lower events
         (snd (dispatch transport cfg str_lower d s))).
Proof.
  unfold deliver. simpl. unfold_m.
  destruct (dispatch transport cfg str_lower d s) as [[[]|x] s1]; reflexivity.
Qed.

Lemma joins_from c events : forall s,
  (0 < REPOST_EVERY_N_JOINS cfg)%Z ->
  initial_sync_done s = true ->
  join_count s = c ->
  (0 <= c < REPOST_EVERY_N_JOINS cfg)%Z ->
  forallb (is_join cfg) events = true ->
  let n := (c + Z.of_nat (length events))%Z in
  let s' := snd (deliver transport cfg str_lower events s) in
  join_count s' = (n mod REPOST_EVERY_N_JOINS cfg)%Z /\
  Z.of_nat (count is_repost (trace s')) =
    (Z.of_nat (count is_repost (trace s)) + n / REPOST_EVERY_N_JOINS cfg)%Z.
Proof.
  revert c. induction events as [|d events IH]; intros c s HT Hdone Hc Hrange Hall.
  - simpl. rewrite Z.add_0_r, Z.mod_small, Z.div_small by lia. lia.
  - simpl in Hall. apply andb_true_iff in Hall as [Hd Hall].
    cbv zeta. rewrite deliver_cons.
    destruct (join_step d s Hdone Hd) as (Hdone' & Hcount & Hreposts).
    cbv zeta in Hdone', Hcount, Hreposts.
    set (s1 := snd (dispatch transport cfg str_lower d s)) in *.
    unfold bump in Hcount. rewrite Hc in Hcount, Hreposts.
    change (length (d :: events)) with (S (length events)). rewrite Nat2Z.inj_succ.
    destruct (c + 1 >=? REPOST_EVERY_N_JOINS cfg)%Z eqn:Hge.
    + assert (c + 1 = REPOST_EVERY_N_JOINS cfg)%Z as Hfull by lia.
      destruct (IH 0%Z s1 HT Hdone' Hcount ltac:(lia) Hall) as [IH1 IH2].
      cbv zeta in IH1, IH2. rewrite IH1, IH2, Hreposts.
      replace (c + Z.succ (Z.of_nat (length events)))%Z
        with (0 + Z.of_nat (length events) + 1 * REPOST_EVERY_N_JOINS cfg)%Z by lia.
      rewrite Z_mod_plus_full, Z_div_plus_full by lia. lia.
    + destruct (IH (c + 1)%Z s1 HT Hdone' Hcount ltac:(lia) Hall) as [IH1 IH2].
      cbv zeta in IH1, IH2. rewrite IH1, IH2, Hreposts.
      replace (c + Z.succ (Z.of_nat (length events)))%Z
        with (c + 1 + Z.of_nat (length events))%Z by lia.
      lia.
Qed.

(** C3: with a threshold T > 0 and the counter at zero, N qualifying joins
    handled one after the other fire the repost floor(N/T) times and leave
    the counter at N mod T. *)
Theorem repost_every_threshold events s :
  (0 < REPOST_EVERY_N_JOINS cfg)%Z ->
  initial_sync_done s = true ->
  join_count s = 0%Z ->
  forallb (is_join cfg) events = true ->
  let n := Z.of_nat (length events) in
  let s' := snd (deliver transport cfg str_lower events s) in
  Z.of_nat (count is_repost (trace s')) =
    (Z.of_nat (count is_repost (trace s)) + n / REPOST_EVERY_N_JOINS cfg)%Z /\
  join_count s' = (n mod REPOST_EVERY_N_JOINS cfg)%Z.
Proof.
  intros HT Hdone Hzero Hall.
  destruct (joins_from 0%Z events s HT Hdone Hzero ltac:(lia) Hall) as [H1 H2].
  split; assumption.
Qed.

(** *** Reactions *)

Lemma on_reaction_event_untracked room e s :
  (forall t, ReactionEvent.reacts_to e = Some t -> t ∉ rules_event_ids s) ->
  on_reaction_event transport cfg str_lower room e s = (Returned tt, s).
Proof.
  intros Hno. unfold on_reaction_event. unfold_m.
  destruct (negb (str_eq (room_id room) (TARGET_ROOM_ID cfg))); [reflexivity|].
  destruct (ReactionEvent.reacts_to e) as [t|]; [|reflexivity].
  rewrite bool_decide_eq_false_2 by (apply Hno; reflexivity). reflexivity.
Qed.

Lemma on_unknown_event_untracked room u s :
  (forall t, unknown_target u = Some t -> t ∉ rules_event_ids s) ->
  snd (on_unknown_event transport cfg str_lower room u s) = s.
Proof.
  unfold unknown_target, relates_to_of, as_dict. unfold_handlers. crunch;
    intros Hno; try reflexivity; reflect_hyps;
    exfalso; apply (Hno _ eq_refl); assumption.
Qed.

(** An untyped event with a payload is handled as the typed event with
    that payload. *)
Lemma unknown_as_reaction room u e s :
  unknown_payload u = Some (reaction_payload e) ->
  on_unknown_event transport cfg str_lower room u s =
  on_reaction_event transport cfg str_lower room e s.
Proof.
  unfold unknown_payload, relates_to_of, as_dict, reaction_payload.
  destruct e as [sender reacts key]. simpl.
  unfold on_unknown_event, on_reaction_event, py_get, in_rules_event_ids,
    is_checkmark_of. unfold_m. simpl.
  destruct (negb (str_eq (room_id room) (TARGET_ROOM_ID cfg))) eqn:Hroom;
    [reflexivity|].
  destruct (str_eq (UnknownEvent.type u) (py "m.reaction")); simpl; [|discriminate].
  destruct (default (JDict []) (assoc (py "content") (UnknownEvent.source u)));
    simpl; try discriminate.
  destruct (default (JDict []) (assoc (py "m.relates_to") d)) as [| | | | |rel];
    simpl; try discriminate.
  destruct (assoc (py "event_id") rel) as [[| | |t| |]|]; simpl; try discriminate;
    destruct (assoc (py "key") rel) as [[| | |k| |]|]; simpl; try discriminate;
    intros [= <- <- <-]; simpl; try reflexivity;
    destruct (bool_decide (t ∈ rules_event_ids s)); reflexivity.
Qed.

(** C9: the typed and the untyped reaction handler agree: on events with
    the same actor, target and key they return the same outcome and the
    same state, ledger and trace of calls included. *)
Theorem reaction_forms_agree room u e p s :
  unknown_payload u = Some p ->
  reaction_payload e = p ->
  on_unknown_event transport cfg str_lower room u s =
  on_reaction_event transport cfg str_lower room e s.
Proof. intros Hu He. subst p. apply unknown_as_reaction. exact Hu. Qed.

Lemma on_reaction_event_invites room e t s :
  room_id room = TARGET_ROOM_ID cfg ->
  ReactionEvent.reacts_to e = Some t ->
  t ∈ rules_event_ids s ->
  is_checkmark (default [] (ReactionEvent.key e)) = true ->
  ReactionEvent.sender e ≠ user_id cfg ->
  ReactionEvent.sender e ∉ invited_users s ->
  let s' := snd (on_reaction_event transport cfg str_lower room e s) in
  (exists r, In (Room_invite (INVITE_SPACE_ID cfg) (ReactionEvent.sender e) r) (trace s')) /\
  count is_invite_call (trace s') = S (count is_invite_call (trace s)).
Proof.
  intros Hroom Ht Hin Hkey Hbot Hnew.
  unfold on_reaction_event, handle_invite, try_invite. unfold_m. simpl.
  unfold str_eq. rewrite Ht, Hkey. simpl.
  repeat (first [ rewrite (bool_decide_eq_true_2 _ Hroom)
                | rewrite (bool_decide_eq_true_2 _ Hin)
                | rewrite (bool_decide_eq_false_2 _ Hbot)
                | rewrite (bool_decide_eq_false_2 _ Hnew) ]; simpl).
  destruct (room_invite transport (world s) (INVITE_SPACE_ID cfg)
              (ReactionEvent.sender e)) as [r w] eqn:Hcall.
  split.
  - exists r. unfold send_tips_dm, send_dm. unfold_m. crunch;
      rewrite ?in_app_iff; simpl; tauto.
  - unfold send_tips_dm, send_dm. unfold_m. crunch;
      rewrite ?count_app; simpl; lia.
Qed.

(** C10: reactions are not held back by the initial sync: a checkmark on a
    tracked message from a user who is neither the bot nor invited yet,
    delivered while [initial_sync_done] is still false, makes the bot call
    [room_invite] for that user, in the typed and in the untyped form. *)
Theorem reaction_during_initial_sync room e t s :
  initial_sync_done s = false ->
  room_id room = TARGET_ROOM_ID cfg ->
  ReactionEvent.reacts_to e = Some t ->
  t ∈ rules_event_ids s ->
  is_checkmark (default [] (ReactionEvent.key e)) = true ->
  ReactionEvent.sender e ≠ user_id cfg ->
  ReactionEvent.sender e ∉ invited_users s ->
  (let s' := snd (on_reaction_event transport cfg str_lower room e s) in
   (exists r, In (Room_invite (INVITE_SPACE_ID cfg) (ReactionEvent.sender e) r) (trace s')) /\
   count is_invite_call (trace s') = S (count is_invite_call (trace s))) /\
  (forall u, unknown_payload u = Some (reaction_payload e) ->
   let s' := snd (on_unknown_event transport cfg str_lower room u s) in
   (exists r, In (Room_invite (INVITE_SPACE_ID cfg) (ReactionEvent.sender e) r) (trace s')) /\
   count is_invite_call (trace s') = S (count is_invite_call (trace s))).
Proof.
  intros _ Hroom Ht Hin Hkey Hbot Hnew. split.
  - apply (on_reaction_event_invites room e t s); assumption.
  - intros u Hu. rewrite (unknown_as_reaction room u e s Hu).
    apply (on_reaction_event_invites room e t s); assumption.
Qed.

(** C5: a reaction whose target is not a tracked message changes nothing
    and calls nothing, whatever its key; the tracked set starts as the
    singleton of the configured identifier and no handler, loop round or
    startup step ever removes an identifier from it. *)
Theorem untracked_reaction_is_ignored :
  (forall room e s,
     (forall t, ReactionEvent.reacts_to e = Some t -> t ∉ rules_event_ids s) ->
     on_reaction_event transport cfg str_lower room e s = (Returned tt, s)) /\
  (forall room u s,
     (forall t, unknown_target u = Some t -> t ∉ rules_event_ids s) ->
     snd (on_unknown_event transport cfg str_lower room u s) = s) /\
  (forall w : W, rules_event_ids (initial cfg w) = {[ TARGET_EVENT_ID cfg ]}) /\
  (forall d s,
     rules_event_ids s ⊆ rules_event_ids (snd (dispatch transport cfg str_lower d s))) /\
  (forall batches s,
     rules_event_ids s ⊆
     rules_event_ids (snd (sync_loop transport cfg str_lower batches s))) /\
  (forall first rooms batches w,
     TARGET_EVENT_ID cfg ∈
     rules_event_ids (snd (main transport cfg str_lower first rooms batches w))).
Proof.
  split; [exact on_reaction_event_untracked|].
  split; [exact on_unknown_event_untracked|].
  split; [reflexivity|].
  split; [exact dispatch_rules_mono|].
  split.
  - intros batches s.
    apply (sync_loop_lift (fun a b => rules_event_ids a ⊆ rules_event_ids b));
      [reflexivity | intros a b c Hab Hbc; etrans; eassumption
      | exact dispatch_rules_mono].
  - intros first rooms batches w.
    assert (rules_event_ids (initial cfg w) ⊆
            rules_event_ids (snd (main transport cfg str_lower first rooms batches w)))
      as Hsub.
    { apply (main_lift (fun a b => rules_event_ids a ⊆ rules_event_ids b));
        [reflexivity | intros a b c Hab Hbc; etrans; eassumption
        | exact dispatch_rules_mono | reflexivity | reflexivity
        | exact post_rules_rules_mono]. }
    apply Hsub. simpl. apply elem_of_singleton. reflexivity.
Qed.


(** *** Member events and the initial sync *)

Lemma on_member_event_before_sync room e s :
  initial_sync_done s = false ->
  on_member_event transport cfg room e s = (Returned tt, s).
Proof. intros Hflag. unfold on_member_event. unfold_m. rewrite Hflag. reflexivity. Qed.

Lemma sync_members_before_sync batch s :
  initial_sync_done s = false ->
  forallb is_member batch = true ->
  sync transport cfg str_lower batch s = (Returned tt, s).
Proof.
  intros Hflag. induction batch as [|[room ev] batch IH]; intros Hall; [reflexivity|].
  simpl in Hall. apply andb_true_iff in Hall as [Hd Hall].
  destruct ev as [e| | |]; try discriminate.
  simpl. unfold mbind, M_bind. unfold dispatch. simpl.
  rewrite (on_member_event_before_sync room e s Hflag). apply IH. exact Hall.
Qed.

Lemma main_ignores_first_members first rooms batches w :
  forallb is_member first = true ->
  main transport cfg str_lower first rooms batches w =
  main transport cfg str_lower [] rooms batches w.
Proof.
  intros Hall. unfold main.
  unfold mbind at 1 3. unfold M_bind at 1 3.
  rewrite (sync_members_before_sync first (initial cfg w) eq_refl Hall).
  reflexivity.
Qed.

(** What the member handler does on every transport.  While
    [initial_sync_done] is false, that is for the events of the first sync
    of [main], a member event leaves the whole state as it is, so no counter
    change and no welcome DM.  Afterwards a qualifying join adds one to the
    counter; when the sum reaches the threshold the counter goes back to
    zero and the repost fires, once, and not otherwise.  When the handler
    returns, which it does whenever no repost is due, [send_welcome_dm] has
    been entered for the sender, and a sender not yet welcomed gets a DM
    room when a welcome text is configured. *)
Theorem join_during_and_after_sync room e s :
  (initial_sync_done s = false ->
   on_member_event transport cfg room e s = (Returned tt, s)) /\
  (forall batch,
   initial_sync_done s = false ->
   forallb is_member batch = true ->
   sync transport cfg str_lower batch s = (Returned tt, s)) /\
  (forall first rooms batches w,
   forallb is_member first = true ->
   main transport cfg str_lower first rooms batches w =
   main transport cfg str_lower [] rooms batches w) /\
  (initial_sync_done s = true ->
   is_join cfg (room, Member e) = true ->
   let r := on_member_event transport cfg room e s in
   let who := RoomMemberEvent.sender e in
   join_count (snd r) = bump cfg (join_count s) /\
   count is_repost (trace (snd r)) =
     count is_repost (trace s)
     + (if (join_count s + 1 >=? REPOST_EVERY_N_JOINS cfg)%Z then 1 else 0) /\
   ((join_count s + 1 < REPOST_EVERY_N_JOINS cfg)%Z -> fst r = Returned tt) /\
   (fst r = Returned tt ->
    count (is_welcome_of who) (trace (snd r)) = S (count (is_welcome_of who) (trace s)) /\
    (who ∉ welcomed_users s ->
     truthy (WELCOME_TEXT cfg) = true ->
     who ∈ welcomed_users (snd r) /\
     count (is_dm_room_for who) (trace (snd r))
     = S (count (is_dm_room_for who) (trace s))))).
Proof.
  split; [apply on_member_event_before_sync|].
  split; [intros batch; apply sync_members_before_sync|].
  split; [apply main_ignores_first_members|].
  intros Hdone Hjoin.
  unfold is_join in Hjoin. simpl in Hjoin.
  apply andb_true_iff in Hjoin as [Hjoin Hbot].
  apply andb_true_iff in Hjoin as [Hroom Hmem].
  apply negb_true_iff in Hbot.
  unfold bump. unfold_handlers. simpl. rewrite Hdone, Hroom, Hmem, Hbot. simpl.
  destruct (join_count s + 1 >=? REPOST_EVERY_N_JOINS cfg)%Z eqn:Hge; crunch.
  all: split; [reflexivity|].
  all: split; [rewrite ?count_app; simpl; lia|].
  all: split; [intros Hlt; first [reflexivity | exfalso; lia]|].
  all: intros Hret; try discriminate.
  all: rewrite ?count_app; simpl; unfold str_eq in *; reflect_hyps.
  all: repeat case_bool_decide; try congruence.
  all: split; [lia|]; intros Hnew Htext; try contradiction; try congruence.
  all: split; [apply elem_of_union_r, elem_of_singleton; reflexivity | lia].
Qed.

(** *** The invite ledger *)

Lemma handle_invite_outcomes user s :
  user ≠ user_id cfg ->
  user ∉ invited_users s ->
  let s' := snd (handle_invite transport cfg str_lower user s) in
  match fst (room_invite transport (world s) (INVITE_SPACE_ID cfg) user) with
  | Returned _ => user ∈ invited_users s'
  | Raised x =>
      if contains ALREADY_IN_THE_ROOM (str_lower (exn_str x))
      then user ∈ invited_users s'
      else invited_users s' = invited_users s
  end.
Proof.
  intros Hbot Hnew. unfold_handlers. simpl. unfold str_eq.
  rewrite (bool_decide_eq_false_2 _ Hbot), (bool_decide_eq_false_2 _ Hnew). simpl.
  destruct (room_invite transport (world s) (INVITE_SPACE_ID cfg) user)
    as [[a|x] w]; simpl.
  - crunch; apply elem_of_union_r, elem_of_singleton; reflexivity.
  - destruct (contains ALREADY_IN_THE_ROOM (str_lower (exn_str x))); simpl;
      [|reflexivity].
    crunch; apply elem_of_union_r, elem_of_singleton; reflexivity.
Qed.

Lemma ledger_ok_initial u (w : W) : ledger_ok str_lower u (initial cfg w).
Proof. split; simpl; intros; lia. Qed.

(** What of C1 holds on the code: an invite that raises anything but an
    "already in the room" error leaves the ledger as it was, and the same
    reaction delivered again makes a second call. *)
Lemma failed_invite_is_retried room e t x s :
  room_id room = TARGET_ROOM_ID cfg ->
  ReactionEvent.reacts_to e = Some t ->
  t ∈ rules_event_ids s ->
  is_checkmark (default [] (ReactionEvent.key e)) = true ->
  ReactionEvent.sender e ≠ user_id cfg ->
  ReactionEvent.sender e ∉ invited_users s ->
  fst (room_invite transport (world s) (INVITE_SPACE_ID cfg) (ReactionEvent.sender e))
    = Raised x ->
  contains ALREADY_IN_THE_ROOM (str_lower (exn_str x)) = false ->
  let s1 := snd (on_reaction_event transport cfg str_lower room e s) in
  let s2 := snd (on_reaction_event transport cfg str_lower room e s1) in
  invited_users s1 = invited_users s /\
  count is_invite_call (trace s1) = S (count is_invite_call (trace s)) /\
  count is_invite_call (trace s2) = S (S (count is_invite_call (trace s))).
Proof.
  intros Hroom Ht Hin Hkey Hbot Hnew Hcall Hother s1 s2.
  assert (invited_users s1 = invited_users s /\ rules_event_ids s1 = rules_event_ids s)
    as [Hinv Hrules].
  { subst s1 s2. revert Hcall.
    unfold on_reaction_event, handle_invite, try_invite. unfold_m. simpl.
    unfold str_eq. rewrite Ht, Hkey. simpl.
    repeat (first [ rewrite (bool_decide_eq_true_2 _ Hroom)
                  | rewrite (bool_decide_eq_true_2 _ Hin)
                  | rewrite (bool_decide_eq_false_2 _ Hbot)
                  | rewrite (bool_decide_eq_false_2 _ Hnew) ]; simpl).
    destruct (room_invite transport (world s) (INVITE_SPACE_ID cfg)
                (ReactionEvent.sender e)) as [r w].
    simpl. intros ->. simpl. rewrite Hother. simpl. split; reflexivity. }
  split; [exact Hinv|].
  destruct (on_reaction_event_invites room e t s Hroom Ht Hin Hkey Hbot Hnew)
    as [_ Hfirst].
  split; [exact Hfirst|].
  destruct (on_reaction_event_invites room e t s1 Hroom Ht) as [_ Hsecond];
    [rewrite Hrules; exact Hin | exact Hkey | exact Hbot
    | rewrite Hinv; exact Hnew |].
  fold s2 in Hsecond. fold s1 in Hfirst. rewrite Hsecond, Hfirst. reflexivity.
Qed.

Lemma dispatch_delivers room e d s :
  delivers room e d ->
  dispatch transport cfg str_lower d s
  = on_reaction_event transport cfg str_lower room e s.
Proof.
  intros [-> | [u [-> Hu]]]; unfold dispatch; simpl; [reflexivity|].
  apply unknown_as_reaction. exact Hu.
Qed.

(** C2, as the code has it: a user in [invited_users] stays there, and
    from then on no event adds an invite call or a tips DM for that user;
    over a whole run at most one invite call per user is kept, that is,
    returns or raises an "already in the room" error.  An invite call that
    raises another error leaves the user out of [invited_users], and the
    user's next acceptance reaction, typed or untyped, makes the bot call
    again. *)
Theorem invited_is_final :
  (forall batch batches s,
     invited_users s ⊆ invited_users (snd (sync transport cfg str_lower batch s)) /\
     invited_users s ⊆
     invited_users (snd (sync_loop transport cfg str_lower batches s))) /\
  (forall batches s u,
     u ∈ invited_users s ->
     let s' := snd (sync_loop transport cfg str_lower batches s) in
     u ∈ invited_users s' /\
     count (is_invite_of u) (trace s') = count (is_invite_of u) (trace s) /\
     count (is_tips_of u) (trace s') = count (is_tips_of u) (trace s)) /\
  (forall first rooms batches w u,
     count (is_kept_invite_of str_lower u)
       (trace (snd (main transport cfg str_lower first rooms batches w))) <= 1) /\
  (forall room e t x s d1 d2,
     delivers room e d1 ->
     delivers room e d2 ->
     room_id room = TARGET_ROOM_ID cfg ->
     ReactionEvent.reacts_to e = Some t ->
     t ∈ rules_event_ids s ->
     is_checkmark (default [] (ReactionEvent.key e)) = true ->
     ReactionEvent.sender e ≠ user_id cfg ->
     ReactionEvent.sender e ∉ invited_users s ->
     fst (room_invite transport (world s) (INVITE_SPACE_ID cfg) (ReactionEvent.sender e))
       = Raised x ->
     contains ALREADY_IN_THE_ROOM (str_lower (exn_str x)) = false ->
     let s1 := snd (dispatch transport cfg str_lower d1 s) in
     let s2 := snd (dispatch transport cfg str_lower d2 s1) in
     invited_users s1 = invited_users s /\
     (ReactionEvent.sender e ∉ invited_users s1) /\
     count is_invite_call (trace s1) = S (count is_invite_call (trace s)) /\
     count is_invite_call (trace s2) = S (S (count is_invite_call (trace s)))).
Proof.
  split; [|split; [|split]].
  - intros batch batches s. split.
    + apply (sync_lift (fun a b => invited_users a ⊆ invited_users b));
        [reflexivity | intros a b c Hab Hbc; etrans; eassumption
        | exact dispatch_invited_mono].
    + apply (sync_loop_lift (fun a b => invited_users a ⊆ invited_users b));
        [reflexivity | intros a b c Hab Hbc; etrans; eassumption
        | exact dispatch_invited_mono].
  - intros batches s u.
    apply (sync_loop_lift (settled u));
      [apply settled_refl | apply settled_trans | apply dispatch_settled].
  - intros first rooms batches w u.
    assert (ledger_ok str_lower u
              (snd (main transport cfg str_lower first rooms batches w)))
      as [Hin Hout].
    { apply (main_lift (fun a b => ledger_ok str_lower u a -> ledger_ok str_lower u b));
        [auto | auto | apply dispatch_ledger_ok | auto | auto
        | apply post_rules_ledger_ok | apply ledger_ok_initial]. }
    destruct (decide (u ∈ invited_users
                (snd (main transport cfg str_lower first rooms batches w))))
      as [Hu|Hu]; [apply Hin in Hu | apply Hout in Hu]; lia.
  - intros room e t x s d1 d2 Hd1 Hd2 Hroom Ht Hin Hkey Hbot Hnew Hcall Hother.
    destruct (failed_invite_is_retried room e t x s Hroom Ht Hin Hkey Hbot Hnew
                Hcall Hother) as (Hsame & Hfirst & Hsecond).
    cbv zeta. rewrite (dispatch_delivers room e d1 s Hd1).
    rewrite (dispatch_delivers room e d2 _ Hd2). split; [exact Hsame|]. split; [rewrite Hsame; exact Hnew|].
    split; [exact Hfirst | exact Hsecond].
Qed.

(** The member events the code passes over are those that fail one of the
    four guards of l. 181-188; [prev_membership] is never read. *)
Lemma on_member_event_ignored room e s :
  ~ (initial_sync_done s = true /\ is_join cfg (room, Member e) = true) ->
  on_member_event transport cfg room e s = (Returned tt, s).
Proof.
  intros Hnot. unfold is_join in Hnot. simpl in Hnot.
  unfold on_member_event. unfold_m.
  destruct (initial_sync_done s); simpl; [|reflexivity].
  destruct (str_eq (room_id room) (TARGET_ROOM_ID cfg)); simpl; [|reflexivity].
  destruct (str_eq (RoomMemberEvent.membership e) (py "join")); simpl; [|reflexivity].
  destruct (str_eq (RoomMemberEvent.sender e) (user_id cfg)); simpl; [reflexivity|].
  exfalso. apply Hnot. split; reflexivity.
Qed.

End Facts.

(** ** The properties on concrete runs *)

(** C1: an invite that fails with an error response.  The homeserver
    answers [room_invite] with an object carrying [message]; the handler
    takes the [hasattr] branch of l. 164, goes on to l. 175, marks alice
    invited and sends the tips DM, and a second acceptance reaction of
    alice makes no second call. *)
Theorem error_response_is_ledgered :
  let cfg := example_cfg 10 in
  let s0 := started 10 refusing in
  let s1 := snd (on_reaction_event scripted cfg ascii_lower rules_room alice_accepts s0) in
  let s2 := snd (on_reaction_event scripted cfg ascii_lower rules_room alice_accepts s1) in
  (alice ∉ invited_users s0) /\
  trace s1 = trace s0 ++
    [Enter (Handle_invite alice);
     Room_invite (py "!space:example.org") alice (Returned forbidden);
     Enter (Send_tips_dm alice);
     Enter (Send_dm alice (py "Tips") []);
     Room_create alice (Returned (RoomCreateResponse (py "!dm:example.org")));
     Room_send (py "!dm:example.org") {| body := py "Tips"; formatted_body := None |}
       (Returned (RoomSendResponse (py "$sent")))] /\
  alice ∈ invited_users s1 /\
  trace s2 = trace s1 ++ [Enter (Handle_invite alice)] /\
  count (is_invite_of alice) (trace s2) = 1.
Proof.
  cbv zeta. split; [by_compute|]. split; [vm_compute; reflexivity|].
  split; [by_compute|].
  split; vm_compute; reflexivity.
Qed.

(** C4: a change of display name by a joined member.  The event has
    membership "join", so [on_member_event] counts it as a join and
    enters the welcome action. *)
Theorem profile_change_counts_as_join :
  let cfg := example_cfg 10 in
  let s0 := started 10 no_script in
  let s1 := snd (on_member_event scripted cfg rules_room alice_renames s0) in
  profile_only alice_renames = true /\
  initial_sync_done s0 = true /\
  join_count s0 = 0%Z /\
  join_count s1 = 1%Z /\
  trace s1 = trace s0 ++
    [Enter (Send_welcome_dm alice);
     Enter (Send_dm alice (py "Welcome") []);
     Room_create alice (Returned (RoomCreateResponse (py "!dm:example.org")));
     Room_send (py "!dm:example.org") {| body := py "Welcome"; formatted_body := None |}
       (Returned (RoomSendResponse (py "$sent")))].
Proof. cbv zeta. repeat split; vm_compute; reflexivity. Qed.

(** C2, counterexample: the first invite call for alice raises a network
    error, the second acceptance reaction makes the bot call again: two
    invite attempts for one user in one run. *)
Lemma failed_invite_is_repeated :
  let run := main scripted (example_cfg 10) ascii_lower [] [rules_room]
               [[(rules_room, Reaction alice_accepts)];
                [(rules_room, Reaction alice_accepts)]] flaky in
  trace (snd run) =
    [Enter Post_rules;
     Room_send (py "!rules:example.org") {| body := py "Rules"; formatted_body := None |}
       (Returned (RoomSendResponse (py "$sent")));
     Enter (Handle_invite alice);
     Room_invite (py "!space:example.org") alice
       (Raised (TransportError (py "Cannot connect to host")));
     Enter (Handle_invite alice);
     Room_invite (py "!space:example.org") alice (Returned {| message := None |});
     Enter (Send_tips_dm alice);
     Enter (Send_dm alice (py "Tips") []);
     Room_create alice (Returned (RoomCreateResponse (py "!dm:example.org")));
     Room_send (py "!dm:example.org") {| body := py "Tips"; formatted_body := None |}
       (Returned (RoomSendResponse (py "$sent")))] /\
  count (is_invite_of alice) (trace (snd run)) = 2 /\
  ~ count (is_invite_of alice) (trace (snd run)) <= 1.
Proof.
  cbv zeta. split; [vm_compute; reflexivity|].
  split; [vm_compute; reflexivity|].
  intros Hle. vm_compute in Hle. lia.
Qed.

(** C6: a qualifying join after the initial sync that is not welcomed.
    Threshold 2 and the counter at 1 after alice's join: bob's join is
    counted and a repost is due; the [room_send] of [post_rules] raises, the
    exception leaves [on_member_event] at l. 195, and l. 197 is never
    reached: [send_welcome_dm] is not entered for bob, bob is not marked
    welcomed and gets no DM room.  On a client that answers the same join
    is counted, the repost fires and bob is welcomed. *)
Theorem repost_failure_skips_welcome :
  let cfg := example_cfg 2 in
  let s1 := snd (on_member_event scripted cfg rules_room alice_joins (started 2 repost_fails)) in
  let r := on_member_event scripted cfg rules_room bob_joins s1 in
  let s1' := snd (on_member_event scripted cfg rules_room alice_joins (started 2 no_script)) in
  let r' := on_member_event scripted cfg rules_room bob_joins s1' in
  initial_sync_done s1 = true /\
  is_join cfg (rules_room, Member bob_joins) = true /\
  (bob ∉ welcomed_users s1) /\
  fst r = Raised (TransportError (py "Cannot connect to host")) /\
  trace (snd r) = trace s1 ++
    [Enter Post_rules;
     Room_send (py "!rules:example.org") {| body := py "Rules"; formatted_body := None |}
       (Raised (TransportError (py "Cannot connect to host")))] /\
  count (is_welcome_of bob) (trace (snd r)) = 0 /\
  count (is_dm_room_for bob) (trace (snd r)) = 0 /\
  (bob ∉ welcomed_users (snd r)) /\
  fst r' = Returned tt /\
  trace (snd r') = trace s1' ++
    [Enter Post_rules;
     Room_send (py "!rules:example.org") {| body := py "Rules"; formatted_body := None |}
       (Returned (RoomSendResponse (py "$sent")));
     Enter (Send_welcome_dm bob);
     Enter (Send_dm bob (py "Welcome") []);
     Room_create bob (Returned (RoomCreateResponse (py "!dm:example.org")));
     Room_send (py "!dm:example.org") {| body := py "Welcome"; formatted_body := None |}
       (Returned (RoomSendResponse (py "$sent")))] /\
  bob ∈ welcomed_users (snd r').
Proof.
  cbv zeta.
  split; [vm_compute; reflexivity|]. split; [vm_compute; reflexivity|].
  split; [by_compute|]. split; [vm_compute; reflexivity|].
  split; [vm_compute; reflexivity|]. split; [vm_compute; reflexivity|].
  split; [vm_compute; reflexivity|]. split; [by_compute|].
  split; [vm_compute; reflexivity|]. split; [vm_compute; reflexivity|].
  by_compute.
Qed.

(** *** Instances *)

Lemma repost_every_threshold_witness :
  let s := started 2 no_script in
  let s' := snd (deliver scripted (example_cfg 2) ascii_lower five_joins s) in
  Z.of_nat (count is_repost (trace s')) =
    (Z.of_nat (count is_repost (trace s)) + 5 / 2)%Z /\
  join_count s' = (5 mod 2)%Z.
Proof.
  apply (repost_every_threshold scripted (example_cfg 2) ascii_lower five_joins
           (started 2 no_script)); vm_compute; reflexivity.
Defined.

Lemma reaction_forms_agree_witness :
  on_unknown_event scripted (example_cfg 10) ascii_lower rules_room
    alice_accepts_untyped (started 10 no_script) =
  on_reaction_event scripted (example_cfg 10) ascii_lower rules_room
    alice_accepts (started 10 no_script).
Proof.
  apply (reaction_forms_agree scripted (example_cfg 10) ascii_lower rules_room
           alice_accepts_untyped alice_accepts (reaction_payload alice_accepts));
    vm_compute; reflexivity.
Defined.

Lemma untracked_reaction_is_ignored_witness :
  on_reaction_event scripted (example_cfg 10) ascii_lower rules_room
    alice_accepts_elsewhere (started 10 no_script) =
  (Returned tt, started 10 no_script) /\
  snd (on_unknown_event scripted (example_cfg 10) ascii_lower rules_room
         alice_accepts_elsewhere_untyped (started 10 no_script)) =
  started 10 no_script.
Proof.
  destruct (untracked_reaction_is_ignored scripted (example_cfg 10) ascii_lower)
    as (Htyped & Huntyped & _).
  split.
  - apply Htyped. intros t [= <-]. by_compute.
  - apply Huntyped. intros t [= <-]. by_compute.
Defined.

Lemma reaction_during_initial_sync_witness :
  let s := initial (example_cfg 10) no_script in
  let s' := snd (on_reaction_event scripted (example_cfg 10) ascii_lower rules_room
                   alice_accepts s) in
  let s'' := snd (on_unknown_event scripted (example_cfg 10) ascii_lower rules_room
                    alice_accepts_untyped s) in
  initial_sync_done s = false /\
  count is_invite_call (trace s') = S (count is_invite_call (trace s)) /\
  count is_invite_call (trace s'') = S (count is_invite_call (trace s)).
Proof.
  split; [reflexivity|].
  cut ((let s' := snd (on_reaction_event scripted (example_cfg 10) ascii_lower
                         rules_room alice_accepts (initial (example_cfg 10) no_script)) in
        (exists r, In (Room_invite (INVITE_SPACE_ID (example_cfg 10))
                         (ReactionEvent.sender alice_accepts) r) (trace s')) /\
        count is_invite_call (trace s')
        = S (count is_invite_call (trace (initial (example_cfg 10) no_script)))) /\
       (forall u, unknown_payload u = Some (reaction_payload alice_accepts) ->
        let s' := snd (on_unknown_event scripted (example_cfg 10) ascii_lower
                         rules_room u (initial (example_cfg 10) no_script)) in
        (exists r, In (Room_invite (INVITE_SPACE_ID (example_cfg 10))
                         (ReactionEvent.sender alice_accepts) r) (trace s')) /\
        count is_invite_call (trace s')
        = S (count is_invite_call (trace (initial (example_cfg 10) no_script))))).
  { intros [Htyped Huntyped]. split; [apply Htyped|].
    apply (Huntyped alice_accepts_untyped). vm_compute. reflexivity. }
  apply (reaction_during_initial_sync scripted (example_cfg 10) ascii_lower
           rules_room alice_accepts (py "$rules") (initial (example_cfg 10) no_script)).
  - reflexivity.
  - reflexivity.
  - reflexivity.
  - by_compute.
  - vm_compute. reflexivity.
  - by_compute.
  - by_compute.
Defined.

Lemma join_during_and_after_sync_witness :
  on_member_event scripted (example_cfg 10) rules_room alice_joins
    (initial (example_cfg 10) no_script)
  = (Returned tt, initial (example_cfg 10) no_script) /\
  sync scripted (example_cfg 10) ascii_lower five_joins
    (initial (example_cfg 10) no_script)
  = (Returned tt, initial (example_cfg 10) no_script) /\
  main scripted (example_cfg 10) ascii_lower five_joins [rules_room] [] no_script
  = main scripted (example_cfg 10) ascii_lower [] [rules_room] [] no_script /\
  join_count (snd (on_member_event scripted (example_cfg 10) rules_room alice_joins
                     (started 10 no_script)))
  = bump (example_cfg 10) (join_count (started 10 no_script)).
Proof.
  destruct (join_during_and_after_sync scripted (example_cfg 10) ascii_lower
              rules_room alice_joins (initial (example_cfg 10) no_script))
    as (Hbefore & Hbatch & Hmain & _).
  destruct (join_during_and_after_sync scripted (example_cfg 10) ascii_lower
              rules_room alice_joins (started 10 no_script))
    as (_ & _ & _ & Hafter).
  split; [|split; [|split]].
  - apply Hbefore. reflexivity.
  - apply Hbatch; reflexivity.
  - apply Hmain. reflexivity.
  - apply Hafter; vm_compute; reflexivity.
Defined.

Lemma invited_is_final_witness :
  (let s1 := snd (on_reaction_event scripted (example_cfg 10) ascii_lower rules_room
                    alice_accepts (started 10 no_script)) in
   let s2 := snd (sync_loop scripted (example_cfg 10) ascii_lower
                    [[(rules_room, Reaction alice_accepts)]] s1) in
   alice ∈ invited_users s2 /\
   count (is_invite_of alice) (trace s2) = count (is_invite_of alice) (trace s1) /\
   count (is_tips_of alice) (trace s2) = count (is_tips_of alice) (trace s1)) /\
  (let s := started 10 flaky in
   let s1 := snd (dispatch scripted (example_cfg 10) ascii_lower
                    (rules_room, Reaction alice_accepts) s) in
   let s2 := snd (dispatch scripted (example_cfg 10) ascii_lower
                    (rules_room, Unknown alice_accepts_untyped) s1) in
   invited_users s1 = invited_users s /\
   (alice ∉ invited_users s1) /\
   count is_invite_call (trace s1) = S (count is_invite_call (trace s)) /\
   count is_invite_call (trace s2) = S (S (count is_invite_call (trace s)))).
Proof.
  destruct (invited_is_final scripted (example_cfg 10) ascii_lower)
    as (_ & Hsettled & _ & Hretry).
  split.
  - apply Hsettled. by_compute.
  - apply (Hretry rules_room alice_accepts (py "$rules")
             (TransportError (py "Cannot connect to host")) (started 10 flaky)).
    + left. reflexivity.
    + right. exists alice_accepts_untyped. split; [reflexivity | vm_compute; reflexivity].
    + reflexivity.
    + reflexivity.
    + by_compute.
    + vm_compute. reflexivity.
    + by_compute.
    + by_compute.
    + vm_compute. reflexivity.
    + vm_compute. reflexivity.
Defined.

(** ** The scenarios of the specification *)

Example thumbs_up_is_no_checkmark : is_checkmark [0x1f44d%N] = false.
Proof. reflexivity. Qed.

Example checkmark_with_selector : is_checkmark [0x2714%N; 0xfe0f%N] = true.
Proof. reflexivity. Qed.

(** Threshold 3, three qualifying joins: one repost, one more tracked
    message, counter back at 0. *)
Example three_joins_one_repost :
  let s := started 3 fresh_ids in
  let s' := snd (deliver scripted (example_cfg 3) ascii_lower
                   [(rules_room, Member alice_joins); (rules_room, Member bob_joins);
                    (rules_room, Member alice_joins)] s) in
  count is_repost (trace s') = S (count is_repost (trace s)) /\
  size (rules_event_ids s) = 2 /\
  size (rules_event_ids s') = 3 /\
  py "$repost" ∈ rules_event_ids s' /\
  join_count s' = 0%Z.
Proof.
  cbv zeta. split; [vm_compute; reflexivity|]. split; [vm_compute; reflexivity|].
  split; [vm_compute; reflexivity|]. split; [by_compute | vm_compute; reflexivity].
Qed.

(** A thumbs-up on the tracked message: no call at all. *)
Example thumbs_up_invites_nobody :
  on_reaction_event scripted (example_cfg 10) ascii_lower rules_room alice_thumbs_up
    (started 10 no_script)
  = (Returned tt, started 10 no_script).
Proof. vm_compute. reflexivity. Qed.

(** A checkmark, and the invite raises "already in the room": one invite
    call, alice invited, one tips DM. *)
Example already_in_room_is_success :
  let s' := snd (on_reaction_event scripted (example_cfg 10) ascii_lower rules_room
                   alice_accepts (started 10 already_there)) in
  count is_invite_call (trace s') = 1 /\
  elements (invited_users s') = [alice] /\
  count (is_tips_of alice) (trace s') = 1 /\
  count (is_dm_room_for alice) (trace s') = 1.
Proof. cbv zeta. repeat split; vm_compute; reflexivity. Qed.

(** Startup finds a two-member direct room with bob: bob counts as
    welcomed, and bob's join creates no DM room. *)
Example seeded_user_is_not_welcomed_again :
  let s := snd (main scripted (example_cfg 10) ascii_lower []
                  [rules_room; dm_with_bob] [] no_script) in
  let s' := snd (on_member_event scripted (example_cfg 10) rules_room bob_joins s) in
  elements (welcomed_users s) = [bob] /\
  join_count s' = 1%Z /\
  count (is_dm_room_for bob) (trace s') = 0.
Proof. cbv zeta. repeat split; vm_compute; reflexivity. Qed.

(** A checkmark delivered by the first, full-state sync of [main] is acted
    on: the run contains the invite call. *)
Example reaction_in_first_sync_invites :
  let s := snd (main scripted (example_cfg 10) ascii_lower
                  [(rules_room, Reaction alice_accepts)] [rules_room] [] no_script) in
  count (is_invite_of alice) (trace s) = 1 /\
  elements (invited_users s) = [alice].
Proof. cbv zeta. repeat split; vm_compute; reflexivity. Qed.

(** * Further properties of the code *)

(** ** The classifier *)

(** X1: a variation selector anywhere in the key, not only at its end, is
    ignored by the classifier. *)
Theorem is_checkmark_selector_anywhere a b :
  is_checkmark (a ++ [0xfe0f%N] ++ b) = is_checkmark (a ++ b) /\
  is_checkmark (a ++ [0xfe0e%N] ++ b) = is_checkmark (a ++ b).
Proof.
  unfold is_checkmark. rewrite !replace1_app. simpl. split; reflexivity.
Qed.

Lemma strip_selectors_app a b :
  strip_selectors (a ++ b) = strip_selectors a ++ strip_selectors b.
Proof. unfold strip_selectors. apply List.filter_app. Qed.

(** X2: two accepted keys put together are never accepted: the classifier
    matches one glyph, not a run of them. *)
Theorem is_checkmark_rejects_two a b :
  is_checkmark a = true -> is_checkmark b = true -> is_checkmark (a ++ b) = false.
Proof.
  intros Ha Hb. apply is_checkmark_true in Ha, Hb.
  destruct (is_checkmark (a ++ b)) eqn:Hab; [|reflexivity].
  apply is_checkmark_true in Hab. rewrite strip_selectors_app in Hab.
  unfold canonical in *.
  destruct Ha as [Ea | [Ea | Ea]], Hb as [Eb | [Eb | Eb]];
    rewrite Ea, Eb in Hab; destruct Hab as [H | [H | H]]; discriminate H.
Qed.

Lemma is_checkmark_rejects_two_witness :
  is_checkmark ([0x2705%N] ++ [0x2714%N; 0xfe0f%N]) = false.
Proof. apply is_checkmark_rejects_two; vm_compute; reflexivity. Defined.

(** ** Loading the texts *)

Lemma lstrip_head s c s' : lstrip s = c :: s' -> is_space c = false.
Proof.
  induction s as [|x s IH]; simpl; [discriminate|].
  destruct (is_space x) eqn:Hx; [exact IH|]. intros [= <- <-]. exact Hx.
Qed.

Lemma lstrip_fixed s : match s with [] => True | c :: _ => is_space c = false end ->
  lstrip s = s.
Proof. destruct s as [|c s]; simpl; [reflexivity|]. intros ->. reflexivity. Qed.

Lemma lstrip_idem s : lstrip (lstrip s) = lstrip s.
Proof.
  apply lstrip_fixed. destruct (lstrip s) as [|c r] eqn:E; [exact I|].
  eapply lstrip_head; exact E.
Qed.

Lemma lstrip_suffix s : exists p, s = p ++ lstrip s /\ forallb is_space p = true.
Proof.
  induction s as [|c s [p [Hp Hall]]]; simpl; [exists []; split; reflexivity|].
  destruct (is_space c) eqn:Hc.
  - exists (c :: p). simpl. rewrite Hc, Hall. split; [congruence | reflexivity].
  - exists []. split; reflexivity.
Qed.

Lemma lstrip_all_space s : forallb is_space s = true -> lstrip s = [].
Proof.
  induction s as [|c s IH]; simpl; [reflexivity|].
  intros H. apply andb_true_iff in H as [-> H]. exact (IH H).
Qed.

(** What [lstrip] keeps of a string that does not start with a space
    survives in full. *)
Lemma lstrip_app_keep x r : is_space x = false -> lstrip (r ++ [x]) = lstrip r ++ [x].
Proof.
  intros Hx. induction r as [|c r IH]; simpl; [rewrite Hx; reflexivity|].
  destruct (is_space c); [exact IH | reflexivity].
Qed.

Lemma strip_head s c s' : strip s = c :: s' -> is_space c = false.
Proof.
  unfold strip, rstrip. intros H.
  destruct (lstrip s) as [|x r] eqn:E; [discriminate H|].
  pose proof (lstrip_head _ _ _ E) as Hx.
  (* rev (x :: r) = rev r ++ [x]: the last code point is kept by lstrip *)
  simpl in H. rewrite (lstrip_app_keep x (rev r) Hx), rev_app_distr in H.
  simpl in H. injection H as <- _. exact Hx.
Qed.

Lemma strip_last s r c : strip s = r ++ [c] -> is_space c = false.
Proof.
  unfold strip, rstrip. intros H.
  apply (f_equal (@rev N)) in H. rewrite rev_involutive, rev_app_distr in H.
  simpl in H. eapply lstrip_head. exact H.
Qed.

Lemma lstrip_nil_all_space s : lstrip s = [] -> forallb is_space s = true.
Proof.
  induction s as [|c s IH]; simpl; [reflexivity|].
  destruct (is_space c); [exact IH | discriminate].
Qed.

Lemma forallb_rev (p : N -> bool) s : forallb p (rev s) = forallb p s.
Proof.
  induction s as [|c s IH]; simpl; [reflexivity|].
  rewrite forallb_app, IH. simpl. rewrite andb_true_r. apply andb_comm.
Qed.

Lemma strip_nil_iff s : strip s = [] <-> forallb is_space s = true.
Proof.
  unfold strip, rstrip. split.
  - intros H. apply (f_equal (@rev N)) in H. rewrite rev_involutive in H. simpl in H.
    apply lstrip_nil_all_space in H. rewrite forallb_rev in H.
    destruct (lstrip s) as [|c r] eqn:E; [apply lstrip_nil_all_space; exact E|].
    apply lstrip_head in E. simpl in H. rewrite E in H. discriminate H.
  - intros H. rewrite (lstrip_all_space s H). reflexivity.
Qed.

(** The string is what [strip] returns, between the whitespace it removed. *)
Lemma strip_decompose s :
  exists before after,
    s = before ++ strip s ++ after /\
    forallb is_space before = true /\ forallb is_space after = true.
Proof.
  destruct (lstrip_suffix s) as [p [Hp Hps]].
  destruct (lstrip_suffix (rev (lstrip s))) as [q [Hq Hqs]].
  exists p, (rev q). split; [|split; [exact Hps | rewrite forallb_rev; exact Hqs]].
  unfold strip, rstrip. rewrite Hp at 1. f_equal.
  rewrite <- rev_app_distr, <- Hq, rev_involutive. reflexivity.
Qed.

(** X3: a text file at the path decides alone: whatever the environment
    holds, the result is the content of the file without the whitespace at
    its two ends, that is, the content is the result between two runs of
    whitespace and the result neither starts nor ends with whitespace; it
    is empty exactly when the file holds only whitespace. *)
Theorem load_text_from_file fs environ file_path env_var text :
  fs !! file_path = Some (File text) ->
  exists t,
    _load_text fs environ file_path env_var = Text t /\
    (forall environ', _load_text fs environ' file_path env_var = Text t) /\
    (exists before after,
       text = before ++ t ++ after /\
       forallb is_space before = true /\ forallb is_space after = true) /\
    (forall c r, t = c :: r -> is_space c = false) /\
    (forall r c, t = r ++ [c] -> is_space c = false) /\
    (truthy t = false <-> forallb is_space text = true).
Proof.
  intros Hfile. exists (strip text). unfold _load_text. rewrite Hfile.
  split; [reflexivity|]. split; [reflexivity|].
  split; [apply strip_decompose|].
  split; [intros c r H; exact (strip_head _ _ _ H)|].
  split; [intros r c H; exact (strip_last _ _ _ H)|].
  rewrite <- strip_nil_iff. destruct (strip text); simpl; split; congruence.
Qed.

Lemma load_text_from_file_witness :
  exists t,
    _load_text example_fs example_environ (py "/app/rules.txt") (py "RULES_TEXT") = Text t /\
    (forall environ',
       _load_text example_fs environ' (py "/app/rules.txt") (py "RULES_TEXT") = Text t) /\
    (exists before after,
       py " Be kind.
" = before ++ t ++ after /\
       forallb is_space before = true /\ forallb is_space after = true) /\
    (forall c r, t = c :: r -> is_space c = false) /\
    (forall r c, t = r ++ [c] -> is_space c = false) /\
    (truthy t = false <-> forallb is_space (py " Be kind.
") = true).
Proof.
  apply (load_text_from_file example_fs example_environ (py "/app/rules.txt")
           (py "RULES_TEXT") (py " Be kind.
")).
  vm_compute. reflexivity.
Defined.

(** The rules file of the example is read without its leading space and its
    line end, and the environment is not asked; the blank tips file gives
    the empty text although [TIPS_TEXT] is set. *)
Example rules_file_is_stripped :
  _load_text example_fs example_environ (py "/app/rules.txt") (py "RULES_TEXT")
  = Text (py "Be kind.") /\
  _load_text example_fs example_environ (py "/app/tips.txt") (py "TIPS_TEXT") = Text [] /\
  _load_text example_fs example_environ (py "/app/welcome.txt") (py "WELCOME_TEXT")
  = Text (py " hello ") /\
  _load_text example_fs example_environ (py "/app/data") (py "DATA")
  = Raises IsADirectoryError.
Proof. vm_compute. repeat split; reflexivity. Qed.

(** The module is imported exactly when none of the six paths names
    something unreadable; the environment has no say in that. *)
Lemma load_texts_loads fs environ base :
  (exists cfg, load_texts fs environ base = Loaded cfg) <->
  (forall path e,
     In path [py "/app/rules.txt"; py "/app/rules.html"; py "/app/welcome.txt";
              py "/app/welcome.html"; py "/app/tips.txt"; py "/app/tips.html"] ->
     fs !! path <> Some (Unreadable e)).
Proof.
  unfold load_texts, then_load, _load_text. split.
  - intros [cfg H] path e Hin Hpath. cbn [In] in Hin. revert H.
    repeat (destruct Hin as [<- | Hin];
            [rewrite ?Hpath; crunch; intros H; discriminate H|]).
    destruct Hin.
  - intros H.
    repeat match goal with
           | |- context [fs !! ?path] =>
               let E := fresh "E" in
               destruct (fs !! path) as [[?text|?e]|] eqn:E;
               [| exfalso; eapply (H path); [cbn [In]; auto 10 | exact E] |]
           end; eexists; reflexivity.
Qed.

(** ** The coroutines *)

(** Case analysis on the two ledgers behind [dm_budget]. *)
Ltac budget_cases u s H :=
  unfold dm_budget in *;
  destruct (decide (u ∈ welcomed_users s)) as [?Hw|?Hw];
    [rewrite (bool_decide_eq_true_2 _ Hw) in H
    |rewrite (bool_decide_eq_false_2 _ Hw) in H];
  (destruct (decide (u ∈ invited_users s)) as [?Hi|?Hi];
    [rewrite (bool_decide_eq_true_2 _ Hi) in H
    |rewrite (bool_decide_eq_false_2 _ Hi) in H]).

Ltac budget_solve :=
  rewrite ?count_app; simpl; unfold str_eq in *; reflect_hyps;
  repeat case_bool_decide; subst; simpl;
  rewrite ?elem_of_union, ?elem_of_singleton in *; try contradiction;
  first [lia | exfalso; tauto].


Ltac self_solve :=
  unfold never_self in *; simpl; rewrite ?count_app; simpl; unfold str_eq in *;
  reflect_hyps; repeat case_bool_decide; subst; simpl;
  rewrite ?elem_of_union, ?elem_of_singleton in *; try contradiction;
  repeat split; first [assumption | lia | intuition congruence].


Section More.

Context {W : Type}.
Variable transport : Transport W.
Variable cfg : Config.
Variable str_lower : pystr -> pystr.

(** *** [send_dm] *)

(** X5: [send_dm] never raises, whatever the client does: it returns a
    boolean, and it leaves the ledgers, the tracked set, the counter and the
    sync flag as they were. *)
Theorem send_dm_is_safe user message html s :
  let r := send_dm transport user message html s in
  (exists b, fst r = Returned b) /\ same_ledger s (snd r).
Proof.
  unfold same_ledger, send_dm. unfold_m. crunch; split; eauto; repeat split.
Qed.

(** X6: [send_dm] creates one room for the user; when that fails it sends
    nothing and returns False, otherwise it sends one message, into the room
    it was given, and returns True exactly when the answer is a
    [RoomSendResponse]. *)
Theorem send_dm_sends_into_its_room user message html s :
  let r := send_dm transport user message html s in
  (exists c,
     (forall dm, c <> Returned (RoomCreateResponse dm)) /\
     trace (snd r) = trace s ++ [Enter (Send_dm user message html); Room_create user c] /\
     fst r = Returned false) \/
  (exists dm x,
     trace (snd r) = trace s ++
       [Enter (Send_dm user message html);
        Room_create user (Returned (RoomCreateResponse dm));
        Room_send dm (make_content message html) x] /\
     fst r = Returned (match x with
                       | Returned (RoomSendResponse _) => true
                       | _ => false
                       end)).
Proof.
  unfold send_dm. unfold_m. simpl.
  destruct (room_create transport (world s) user) as [[[dm|]|x] w1] eqn:Hc; simpl.
  - right. exists dm.
    destruct (room_send transport w1 dm (make_content message html))
      as [[[ev|]|y] w2]; simpl; eexists; rewrite <- !app_assoc; simpl;
      (split; [reflexivity|reflexivity]).
  - left. exists (Returned CreateOther). rewrite <- !app_assoc. simpl.
    split; [intros dm; discriminate|]. split; reflexivity.
  - left. exists (Raised x). rewrite <- !app_assoc. simpl.
    split; [intros dm; discriminate|]. split; reflexivity.
Qed.

(** *** [post_rules] *)

(** The branches of [post_rules]. *)
Lemma post_rules_cases s :
  let r := post_rules transport cfg s in
  invited_users (snd r) = invited_users s /\
  welcomed_users (snd r) = welcomed_users s /\
  join_count (snd r) = join_count s /\
  (truthy (RULES_TEXT cfg) = false ->
   r = (Returned tt, record (Enter Post_rules) (world s) s)) /\
  (truthy (RULES_TEXT cfg) = true ->
   exists x,
     trace (snd r) = trace s ++
       [Enter Post_rules; Room_send (TARGET_ROOM_ID cfg) (rules_content cfg) x] /\
     match x with
     | Returned (RoomSendResponse ev) =>
         fst r = Returned tt /\ rules_event_ids (snd r) = rules_event_ids s ∪ {[ ev ]}
     | Returned SendOther =>
         fst r = Returned tt /\ rules_event_ids (snd r) = rules_event_ids s
     | Raised e =>
         fst r = Raised e /\ rules_event_ids (snd r) = rules_event_ids s
     end).
Proof.
  unfold post_rules, rules_content. unfold_m. simpl.
  destruct (truthy (RULES_TEXT cfg)); simpl.
  - destruct (room_send transport (world s) (TARGET_ROOM_ID cfg)
                (make_content (RULES_TEXT cfg) (RULES_HTML cfg)))
      as [[[ev|]|y] w1]; simpl.
    all: split; [reflexivity|]. all: split; [reflexivity|]. all: split; [reflexivity|].
    all: split; [intros H; discriminate H|].
    all: intros _; eexists; rewrite <- !app_assoc; simpl.
    all: split; [reflexivity|]; split; reflexivity.
  - split; [reflexivity|]. split; [reflexivity|]. split; [reflexivity|].
    split; [reflexivity | intros H; discriminate H].
Qed.

(** X7: [post_rules] touches neither ledger nor counter.  Without rules
    text it calls nothing.  With rules text it sends once to the gated room,
    tracks the returned event id when the answer is a [RoomSendResponse],
    and leaves the tracked set alone on any other answer or exception. *)
Theorem post_rules_tracks_its_post s :
  let r := post_rules transport cfg s in
  invited_users (snd r) = invited_users s /\
  welcomed_users (snd r) = welcomed_users s /\
  join_count (snd r) = join_count s /\
  (truthy (RULES_TEXT cfg) = false ->
   r = (Returned tt, record (Enter Post_rules) (world s) s)) /\
  (truthy (RULES_TEXT cfg) = true ->
   exists x,
     trace (snd r) = trace s ++
       [Enter Post_rules; Room_send (TARGET_ROOM_ID cfg) (rules_content cfg) x] /\
     match x with
     | Returned (RoomSendResponse ev) =>
         fst r = Returned tt /\ rules_event_ids (snd r) = rules_event_ids s ∪ {[ ev ]}
     | Returned SendOther =>
         fst r = Returned tt /\ rules_event_ids (snd r) = rules_event_ids s
     | Raised e =>
         fst r = Raised e /\ rules_event_ids (snd r) = rules_event_ids s
     end).
Proof. exact (post_rules_cases s). Qed.

(** X8: once a repost has gone through, a checkmark on the new message is
    an acceptance: the reaction of a user not yet invited makes the bot call
    [room_invite]. *)
Theorem reposted_message_is_tracked room e ev s :
  truthy (RULES_TEXT cfg) = true ->
  fst (room_send transport (world s) (TARGET_ROOM_ID cfg) (rules_content cfg))
    = Returned (RoomSendResponse ev) ->
  room_id room = TARGET_ROOM_ID cfg ->
  ReactionEvent.reacts_to e = Some ev ->
  is_checkmark (default [] (ReactionEvent.key e)) = true ->
  ReactionEvent.sender e ≠ user_id cfg ->
  ReactionEvent.sender e ∉ invited_users s ->
  let s1 := snd (post_rules transport cfg s) in
  let s2 := snd (on_reaction_event transport cfg str_lower room e s1) in
  ev ∈ rules_event_ids s1 /\
  count is_invite_call (trace s2) = S (count is_invite_call (trace s1)).
Proof.
  intros Htext Hsend Hroom Ht Hkey Hbot Hnew s1 s2.
  assert (ev ∈ rules_event_ids s1 /\ invited_users s1 = invited_users s) as [Hev Hinv].
  { subst s1 s2. revert Hsend. unfold post_rules, rules_content. unfold_m. simpl.
    rewrite Htext. simpl.
    destruct (room_send transport (world s) (TARGET_ROOM_ID cfg)
                (make_content (RULES_TEXT cfg) (RULES_HTML cfg))) as [r w1].
    simpl. intros ->. simpl.
    split; [apply elem_of_union_r, elem_of_singleton; reflexivity | reflexivity]. }
  split; [exact Hev|].
  apply (on_reaction_event_invites transport cfg str_lower room e ev s1);
    try assumption.
  rewrite Hinv. exact Hnew.
Qed.

(** *** [send_welcome_dm] *)

(** X9: a user is marked welcomed before the DM is sent: whatever happens
    to the DM, [send_welcome_dm] returns, the user is in [welcomed_users],
    one DM room was requested, and a second call does nothing but return. *)
Theorem welcome_is_marked_before_sending user s :
  user ≠ user_id cfg ->
  user ∉ welcomed_users s ->
  truthy (WELCOME_TEXT cfg) = true ->
  let r := send_welcome_dm transport cfg user s in
  fst r = Returned tt /\
  user ∈ welcomed_users (snd r) /\
  count (is_dm_room_for user) (trace (snd r)) = S (count (is_dm_room_for user) (trace s)) /\
  send_welcome_dm transport cfg user (snd r)
  = (Returned tt, record (Enter (Send_welcome_dm user)) (world (snd r)) (snd r)).
Proof.
  intros Hbot Hnew Htext.
  unfold send_welcome_dm, send_dm. unfold_m. simpl. unfold str_eq.
  rewrite (bool_decide_eq_false_2 _ Hbot), (bool_decide_eq_false_2 _ Hnew), Htext.
  simpl.
  assert (forall X : gset pystr, bool_decide (user ∈ X ∪ {[user]}) = true) as Hin.
  { intros X. apply bool_decide_eq_true_2, elem_of_union_r, elem_of_singleton.
    reflexivity. }
  crunch;
    try match goal with
        | H : bool_decide _ = false |- _ => rewrite Hin in H; discriminate H
        end;
    rewrite ?count_app; simpl; unfold str_eq;
    rewrite ?(bool_decide_eq_true_2 (user = user) eq_refl);
    (split; [reflexivity|]);
    (split; [apply elem_of_union_r, elem_of_singleton; reflexivity|]);
    (split; [lia | reflexivity]).
Qed.

(** *** The reaction handlers *)

Lemma on_reaction_event_returns room e s :
  fst (on_reaction_event transport cfg str_lower room e s) = Returned tt.
Proof. unfold_handlers. crunch; reflexivity. Qed.

(** X10: no exception leaves the typed reaction handler, whatever the client
    answers to the invite and to the tips DM. *)
Theorem on_reaction_event_never_raises room e s :
  fst (on_reaction_event transport cfg str_lower room e s) = Returned tt.
Proof. apply on_reaction_event_returns. Qed.

(** X11: the untyped handler raises only on malformed content, before any
    call and any change of state, and never passes on an exception of the
    client; on an event with a well-formed payload it returns. *)
Theorem on_unknown_event_raises_before_acting room u s :
  (forall x, fst (on_unknown_event transport cfg str_lower room u s) = Raised x ->
   snd (on_unknown_event transport cfg str_lower room u s) = s /\
   forall text, x <> TransportError text) /\
  (forall p, unknown_payload u = Some p ->
   fst (on_unknown_event transport cfg str_lower room u s) = Returned tt).
Proof.
  split.
  - unfold_handlers. crunch; intros x Hx; try discriminate Hx;
      injection Hx as <-; (split; [reflexivity | intros text; discriminate]).
  - intros p Hp.
    rewrite (unknown_as_reaction transport cfg str_lower room u
               {| ReactionEvent.sender := actor p;
                  ReactionEvent.reacts_to := target p;
                  ReactionEvent.key := Some (reaction_key p) |} s).
    + apply on_reaction_event_returns.
    + rewrite Hp. destruct p; reflexivity.
Qed.

(** *** [on_member_event] *)

(** X12: the member handler raises only when a repost is due and its
    [room_send] raises; the counter has been reset to zero by then, and the
    sender is neither welcomed nor marked. *)
Theorem on_member_event_raises_only_from_the_repost room e x s :
  fst (on_member_event transport cfg room e s) = Raised x ->
  let s' := snd (on_member_event transport cfg room e s) in
  initial_sync_done s = true /\
  is_join cfg (room, Member e) = true /\
  (REPOST_EVERY_N_JOINS cfg <= join_count s + 1)%Z /\
  truthy (RULES_TEXT cfg) = true /\
  fst (room_send transport (world s) (TARGET_ROOM_ID cfg) (rules_content cfg)) = Raised x /\
  join_count s' = 0%Z /\
  welcomed_users s' = welcomed_users s /\
  count (is_welcome_of (RoomMemberEvent.sender e)) (trace s')
  = count (is_welcome_of (RoomMemberEvent.sender e)) (trace s).
Proof.
  unfold is_join, rules_content. simpl.
  unfold on_member_event, post_rules, send_welcome_dm, send_dm. unfold_m. simpl.
  destruct (initial_sync_done s); simpl; [|discriminate].
  destruct (str_eq (room_id room) (TARGET_ROOM_ID cfg)); simpl; [|discriminate].
  destruct (str_eq (RoomMemberEvent.membership e) (py "join")); simpl; [|discriminate].
  destruct (str_eq (RoomMemberEvent.sender e) (user_id cfg)); simpl; [discriminate|].
  destruct (join_count s + 1 >=? REPOST_EVERY_N_JOINS cfg)%Z eqn:Hge; simpl.
  - destruct (truthy (RULES_TEXT cfg)); simpl.
    + destruct (room_send transport (world s) (TARGET_ROOM_ID cfg)
                  (make_content (RULES_TEXT cfg) (RULES_HTML cfg)))
        as [[[ev|]|y] w1]; simpl.
      * crunch; discriminate.
      * crunch; discriminate.
      * intros [= <-]. rewrite ?count_app. simpl.
        repeat split; try reflexivity; lia.
    + crunch; discriminate.
  - crunch; discriminate.
Qed.

(** X13: an event of any kind from a room other than the gated one changes
    nothing and calls nothing. *)
Theorem other_rooms_are_ignored d s :
  room_id (fst d) ≠ TARGET_ROOM_ID cfg ->
  dispatch transport cfg str_lower d s = (Returned tt, s).
Proof.
  intros Hroom. destruct d as [room [e|e|e|]]; simpl in *; unfold dispatch; simpl.
  - unfold on_member_event. unfold_m. unfold str_eq.
    rewrite (bool_decide_eq_false_2 _ Hroom).
    destruct (initial_sync_done s); reflexivity.
  - unfold on_reaction_event. unfold_m. unfold str_eq.
    rewrite (bool_decide_eq_false_2 _ Hroom). reflexivity.
  - unfold on_unknown_event. unfold_m. unfold str_eq.
    rewrite (bool_decide_eq_false_2 _ Hroom). reflexivity.
  - reflexivity.
Qed.

(** *** Invariants of a whole run *)

Section Invariant.

Variable Inv : @Sys W -> Prop.
Hypothesis Inv_count : forall n s, Inv s -> Inv (set_join_count n s).
Hypothesis Inv_post_rules : forall s, Inv s -> Inv (snd (post_rules transport cfg s)).
Hypothesis Inv_welcome :
  forall u s, Inv s -> Inv (snd (send_welcome_dm transport cfg u s)).
Hypothesis Inv_invite :
  forall u s, Inv s -> Inv (snd (handle_invite transport cfg str_lower u s)).

Let keeps (a b : @Sys W) : Prop := Inv a -> Inv b.

Lemma keeps_trans a b c : keeps a b -> keeps b c -> keeps a c.
Proof. unfold keeps. auto. Qed.

Lemma py_get_state v k dflt (s : @Sys W) : snd (py_get v k dflt s) = s.
Proof. destruct v; reflexivity. Qed.

Lemma dispatch_inv d s :
  Inv s -> Inv (snd (dispatch transport cfg str_lower d s)).
Proof.
  revert s. change (forall s, keeps s (snd (dispatch transport cfg str_lower d s))).
  destruct d as [room [e|e|e|]]; unfold dispatch; simpl.
  - unfold on_member_event.
    apply (bind_lift keeps keeps_trans); [intros s H; exact H | intros s0].
    destruct (negb (initial_sync_done s0)); [intros s H; exact H|].
    destruct (negb (str_eq (room_id room) (TARGET_ROOM_ID cfg))); [intros s H; exact H|].
    destruct (negb (str_eq (RoomMemberEvent.membership e) (py "join")));
      [intros s H; exact H|].
    destruct (str_eq (RoomMemberEvent.sender e) (user_id cfg)); [intros s H; exact H|].
    apply (bind_lift keeps keeps_trans); [intros s H; simpl; apply Inv_count; exact H | intros _].
    apply (bind_lift keeps keeps_trans); [intros s H; exact H | intros s1].
    apply (bind_lift keeps keeps_trans); [|intros _ s H; apply Inv_welcome; exact H].
    destruct (join_count s1 >=? REPOST_EVERY_N_JOINS cfg)%Z; [|intros s H; exact H].
    apply (bind_lift keeps keeps_trans);
      [intros s H; simpl; apply Inv_count; exact H
      | intros _ s H; apply Inv_post_rules; exact H].
  - unfold on_reaction_event.
    destruct (negb (str_eq (room_id room) (TARGET_ROOM_ID cfg))); [intros s H; exact H|].
    apply (bind_lift keeps keeps_trans); [intros s H; exact H | intros s0].
    destruct (negb _); [intros s H; exact H|].
    destruct (negb _); [intros s H; exact H|].
    intros s H. apply Inv_invite. exact H.
  - unfold on_unknown_event.
    destruct (negb (str_eq (room_id room) (TARGET_ROOM_ID cfg))); [intros s H; exact H|].
    destruct (negb _); [intros s H; exact H|].
    apply (bind_lift keeps keeps_trans);
      [intros s; rewrite py_get_state; intros H; exact H | intros content].
    apply (bind_lift keeps keeps_trans);
      [intros s; rewrite py_get_state; intros H; exact H | intros relates_to].
    apply (bind_lift keeps keeps_trans);
      [intros s; rewrite py_get_state; intros H; exact H | intros target].
    apply (bind_lift keeps keeps_trans);
      [intros s; destruct target; intros H; exact H | intros tracked].
    destruct (negb tracked); [intros s H; exact H|].
    apply (bind_lift keeps keeps_trans);
      [intros s; rewrite py_get_state; intros H; exact H | intros reaction_key].
    apply (bind_lift keeps keeps_trans);
      [intros s; destruct reaction_key; intros H; exact H | intros checkmark].
    destruct (negb checkmark); [intros s H; exact H|].
    intros s H. apply Inv_invite. exact H.
  - intros s H. exact H.
Qed.

Lemma sync_loop_inv batches s :
  Inv s -> Inv (snd (sync_loop transport cfg str_lower batches s)).
Proof.
  apply (sync_loop_lift transport cfg str_lower keeps);
    [intros a H; exact H | exact keeps_trans | intros d a H; apply dispatch_inv; exact H].
Qed.

Hypothesis Inv_flag : forall s, Inv s -> Inv (set_initial_sync_done true s).
Hypothesis Inv_seed : forall rooms s, Inv s -> Inv (snd (seed_welcomed cfg rooms s)).
Hypothesis Inv_initial : forall w, Inv (initial cfg w).

Lemma main_inv first rooms batches w :
  Inv (snd (main transport cfg str_lower first rooms batches w)).
Proof.
  cut (keeps (initial cfg w)
         (snd (main transport cfg str_lower first rooms batches w)));
    [intros H; apply H, Inv_initial|].
  unfold main.
  apply (bind_lift keeps keeps_trans); [|intros _].
  { apply (sync_lift transport cfg str_lower keeps);
      [intros a H; exact H | exact keeps_trans | intros d a H; apply dispatch_inv; exact H]. }
  apply (bind_lift keeps keeps_trans); [intros s H; simpl; apply Inv_flag; exact H | intros _].
  apply (bind_lift keeps keeps_trans); [intros s H; apply Inv_seed; exact H | intros _].
  apply (bind_lift keeps keeps_trans); [|intros _].
  { intros s. destruct (truthy (RULES_TEXT cfg));
      [intros H; apply Inv_post_rules; exact H | intros H; exact H]. }
  intros s H. apply sync_loop_inv. exact H.
Qed.

End Invariant.

Lemma seed_welcomed_inv (Inv : @Sys W -> Prop) :
  (forall u s, Inv s -> Inv (add_welcomed u s)) ->
  forall rooms s, Inv s -> Inv (snd (seed_welcomed cfg rooms s)).
Proof.
  intros Hadd.
  apply (seed_welcomed_lift cfg (fun a b => Inv a -> Inv b)); auto.
Qed.

(** **** DM rooms *)

Lemma dm_budget_post_rules u s :
  count (is_dm_room_for u) (trace s) <= dm_budget u s ->
  count (is_dm_room_for u) (trace (snd (post_rules transport cfg s)))
  <= dm_budget u (snd (post_rules transport cfg s)).
Proof. intros H. unfold post_rules, dm_budget in *. unfold_m. crunch; budget_solve. Qed.

Lemma dm_budget_welcome u v s :
  count (is_dm_room_for u) (trace s) <= dm_budget u s ->
  count (is_dm_room_for u) (trace (snd (send_welcome_dm transport cfg v s)))
  <= dm_budget u (snd (send_welcome_dm transport cfg v s)).
Proof.
  intros H. budget_cases u s H.
  all: unfold send_welcome_dm, send_dm; unfold_m; crunch; budget_solve.
Qed.

Lemma dm_budget_invite u v s :
  count (is_dm_room_for u) (trace s) <= dm_budget u s ->
  count (is_dm_room_for u) (trace (snd (handle_invite transport cfg str_lower v s)))
  <= dm_budget u (snd (handle_invite transport cfg str_lower v s)).
Proof.
  intros H. budget_cases u s H.
  all: unfold handle_invite, try_invite, send_tips_dm, send_dm; unfold_m; crunch;
    budget_solve.
Qed.

Lemma dm_budget_add_welcomed u v (s : @Sys W) :
  count (is_dm_room_for u) (trace s) <= dm_budget u s ->
  count (is_dm_room_for u) (trace (add_welcomed v s)) <= dm_budget u (add_welcomed v s).
Proof. intros H. budget_cases u s H; simpl; budget_solve. Qed.

(** X14: over a whole run the bot asks for at most two DM rooms per user, one
    for the welcome and one for the tips. *)
Theorem at_most_two_dm_rooms first rooms batches w u :
  count (is_dm_room_for u)
    (trace (snd (main transport cfg str_lower first rooms batches w))) <= 2.
Proof.
  assert (count (is_dm_room_for u)
            (trace (snd (main transport cfg str_lower first rooms batches w)))
          <= dm_budget u (snd (main transport cfg str_lower first rooms batches w)))
    as Hinv.
  { apply (main_inv (fun s => count (is_dm_room_for u) (trace s) <= dm_budget u s)).
    - intros n s H. exact H.
    - apply dm_budget_post_rules.
    - intros v. apply dm_budget_welcome.
    - intros v. apply dm_budget_invite.
    - intros s H. exact H.
    - apply seed_welcomed_inv. intros v. apply dm_budget_add_welcomed.
    - intros w0. simpl. lia. }
  unfold dm_budget in Hinv. repeat case_bool_decide; lia.
Qed.

(** **** The bot itself *)

Lemma never_self_post_rules s :
  never_self cfg s -> never_self cfg (snd (post_rules transport cfg s)).
Proof.
  intros (H1 & H2 & H3 & H4). unfold post_rules. unfold_m. crunch; self_solve.
Qed.

Lemma never_self_welcome v s :
  never_self cfg s -> never_self cfg (snd (send_welcome_dm transport cfg v s)).
Proof.
  intros (H1 & H2 & H3 & H4). unfold send_welcome_dm, send_dm. unfold_m.
  crunch; self_solve.
Qed.

Lemma never_self_invite v s :
  never_self cfg s ->
  never_self cfg (snd (handle_invite transport cfg str_lower v s)).
Proof.
  intros (H1 & H2 & H3 & H4).
  unfold handle_invite, try_invite, send_tips_dm, send_dm. unfold_m.
  crunch; self_solve.
Qed.

Lemma never_self_seed rooms (s : @Sys W) :
  never_self cfg s -> never_self cfg (snd (seed_welcomed cfg rooms s)).
Proof.
  revert s. induction rooms as [|room rooms IH]; intros s H; [exact H|].
  simpl. unfold mbind, M_bind.
  destruct (Nat.eqb (length (users room)) 2 && bool_decide (user_id cfg ∈ users room));
    [|apply IH; exact H].
  destruct (filter (fun u => u ≠ user_id cfg) (users room)) as [|other rest] eqn:Hf;
    [apply IH; exact H|].
  apply IH. simpl.
  assert (other ≠ user_id cfg) as Hother.
  { assert (other ∈ filter (fun u => u ≠ user_id cfg) (users room)) as Hin
      by (rewrite Hf; left).
    apply list_elem_of_filter in Hin. tauto. }
  destruct H as (H1 & H2 & H3 & H4). unfold never_self. simpl.
  rewrite elem_of_union, elem_of_singleton.
  repeat split; try assumption. intros [Hw | Heq]; [contradiction | congruence].
Qed.

(** X15: over a whole run the bot's own id enters neither ledger, and the bot
    never invites itself nor opens a DM room with itself. *)
Theorem bot_never_serves_itself first rooms batches w :
  never_self cfg (snd (main transport cfg str_lower first rooms batches w)).
Proof.
  apply (main_inv (never_self cfg)).
  - intros n s H. exact H.
  - apply never_self_post_rules.
  - apply never_self_welcome.
  - apply never_self_invite.
  - intros s H. exact H.
  - apply never_self_seed.
  - intros w0. unfold never_self. simpl.
    repeat split; try reflexivity; apply not_elem_of_empty.
Qed.

(** **** Where invites go, and who gets the tips *)

Lemma space_only_invite v s :
  count (is_invite_elsewhere cfg) (trace s) = 0 ->
  count (is_invite_elsewhere cfg)
    (trace (snd (handle_invite transport cfg str_lower v s))) = 0.
Proof.
  intros H. unfold handle_invite, try_invite, send_tips_dm, send_dm. unfold_m.
  crunch; rewrite ?count_app; simpl; unfold str_eq;
    rewrite ?(bool_decide_eq_true_2 (INVITE_SPACE_ID cfg = INVITE_SPACE_ID cfg) eq_refl);
    simpl; lia.
Qed.

Lemma space_only_welcome v s :
  count (is_invite_elsewhere cfg) (trace s) = 0 ->
  count (is_invite_elsewhere cfg)
    (trace (snd (send_welcome_dm transport cfg v s))) = 0.
Proof.
  intros H. unfold send_welcome_dm, send_dm. unfold_m.
  crunch; rewrite ?count_app; simpl; lia.
Qed.

Lemma space_only_post_rules s :
  count (is_invite_elsewhere cfg) (trace s) = 0 ->
  count (is_invite_elsewhere cfg) (trace (snd (post_rules transport cfg s))) = 0.
Proof.
  intros H. unfold post_rules. unfold_m. crunch; rewrite ?count_app; simpl; lia.
Qed.

(** X16: every invite of a run is an invite into [INVITE_SPACE_ID]. *)
Theorem invites_go_to_the_space first rooms batches w :
  count (is_invite_elsewhere cfg)
    (trace (snd (main transport cfg str_lower first rooms batches w))) = 0.
Proof.
  apply (main_inv (fun s => count (is_invite_elsewhere cfg) (trace s) = 0)).
  - intros n s H. exact H.
  - apply space_only_post_rules.
  - apply space_only_welcome.
  - apply space_only_invite.
  - intros s H. exact H.
  - apply seed_welcomed_inv. intros u s H. exact H.
  - reflexivity.
Qed.

Lemma tips_invite u v s :
  count (is_tips_of u) (trace s) = count (is_kept_invite_of str_lower u) (trace s) ->
  let s' := snd (handle_invite transport cfg str_lower v s) in
  count (is_tips_of u) (trace s') = count (is_kept_invite_of str_lower u) (trace s').
Proof.
  intros H. unfold handle_invite, try_invite, send_tips_dm, send_dm. unfold_m.
  crunch; rewrite ?count_app; simpl; reflect_hyps; try use_eqns;
    rewrite ?andb_true_r, ?andb_false_r; destruct (str_eq v u); simpl; lia.
Qed.

Lemma tips_welcome u v s :
  count (is_tips_of u) (trace s) = count (is_kept_invite_of str_lower u) (trace s) ->
  let s' := snd (send_welcome_dm transport cfg v s) in
  count (is_tips_of u) (trace s') = count (is_kept_invite_of str_lower u) (trace s').
Proof.
  intros H. unfold send_welcome_dm, send_dm. unfold_m.
  crunch; rewrite ?count_app; simpl; lia.
Qed.

Lemma tips_post_rules u s :
  count (is_tips_of u) (trace s) = count (is_kept_invite_of str_lower u) (trace s) ->
  let s' := snd (post_rules transport cfg s) in
  count (is_tips_of u) (trace s') = count (is_kept_invite_of str_lower u) (trace s').
Proof.
  intros H. unfold post_rules. unfold_m. crunch; rewrite ?count_app; simpl; lia.
Qed.

(** X17: over a whole run the tips action is entered for a user exactly as
    often as an invite call for that user was kept: never without an invite,
    and never after an invite that raised another error. *)
Theorem tips_follow_kept_invites first rooms batches w u :
  let s := snd (main transport cfg str_lower first rooms batches w) in
  count (is_tips_of u) (trace s) = count (is_kept_invite_of str_lower u) (trace s).
Proof.
  apply (main_inv (fun s => count (is_tips_of u) (trace s)
                            = count (is_kept_invite_of str_lower u) (trace s))).
  - intros n s H. exact H.
  - apply tips_post_rules.
  - intros v. apply tips_welcome.
  - intros v. apply tips_invite.
  - intros s H. exact H.
  - apply seed_welcomed_inv. intros v s H. exact H.
  - reflexivity.
Qed.

(** **** Where tracked messages come from *)

Lemma posted_app t tr more : posted cfg t tr -> posted cfg t (tr ++ more).
Proof. unfold posted. intros H. apply in_or_app. left. exact H. Qed.

(** A step that leaves the tracked set alone and only extends the trace. *)
Lemma sourced_frame (s s' : @Sys W) :
  rules_event_ids s' = rules_event_ids s ->
  (exists more, trace s' = trace s ++ more) ->
  sourced cfg s -> sourced cfg s'.
Proof.
  intros Hr [more Ht] H t Hin. rewrite Hr in Hin. rewrite Ht.
  destruct (H t Hin) as [Heq | Hp]; [left; exact Heq | right; apply posted_app; exact Hp].
Qed.

Lemma sourced_invite v s :
  sourced cfg s -> sourced cfg (snd (handle_invite transport cfg str_lower v s)).
Proof.
  apply sourced_frame;
    unfold handle_invite, try_invite, send_tips_dm, send_dm; unfold_m; crunch;
    first [reflexivity | eexists; rewrite <- ?app_assoc; reflexivity].
Qed.

Lemma sourced_welcome v s :
  sourced cfg s -> sourced cfg (snd (send_welcome_dm transport cfg v s)).
Proof.
  apply sourced_frame;
    unfold send_welcome_dm, send_dm; unfold_m; crunch;
    first [reflexivity | eexists; rewrite <- ?app_assoc; reflexivity].
Qed.

Lemma sourced_post_rules s :
  sourced cfg s -> sourced cfg (snd (post_rules transport cfg s)).
Proof.
  intros H.
  destruct (post_rules_cases s) as (_ & _ & _ & Hoff & Hon).
  cbv zeta in Hoff, Hon.
  destruct (truthy (RULES_TEXT cfg)) eqn:Htext.
  - destruct (Hon eq_refl) as [x [Htrace Hx]].
    intros t Hin. rewrite Htrace.
    destruct x as [[ev|]|y]; destruct Hx as [_ Hrules]; rewrite Hrules in Hin.
    + apply elem_of_union in Hin as [Hin | Hin].
      * destruct (H t Hin) as [Heq | Hp];
          [left; exact Heq | right; apply posted_app; exact Hp].
      * apply elem_of_singleton in Hin. subst t. right.
        unfold posted. apply in_or_app. right. right. left. reflexivity.
    + destruct (H t Hin) as [Heq | Hp];
        [left; exact Heq | right; apply posted_app; exact Hp].
    + destruct (H t Hin) as [Heq | Hp];
        [left; exact Heq | right; apply posted_app; exact Hp].
  - rewrite (Hoff eq_refl). simpl.
    apply (sourced_frame s); [reflexivity | eexists; reflexivity | exact H].
Qed.

(** X18: every tracked message id of a run is the configured one or the id
    the server returned for a rules post to the gated room. *)
Theorem tracked_ids_are_sourced first rooms batches w t :
  let s := snd (main transport cfg str_lower first rooms batches w) in
  t ∈ rules_event_ids s ->
  t = TARGET_EVENT_ID cfg \/ posted cfg t (trace s).
Proof.
  cbv zeta. revert t.
  change (sourced cfg (snd (main transport cfg str_lower first rooms batches w))).
  apply (main_inv (sourced cfg)).
  - intros n s H. exact H.
  - apply sourced_post_rules.
  - apply sourced_welcome.
  - apply sourced_invite.
  - intros s H. exact H.
  - apply seed_welcomed_inv. intros u s H. exact H.
  - intros w0 t Hin. left. simpl in Hin. apply elem_of_singleton in Hin. exact Hin.
Qed.

(** **** The join counter *)

Lemma dispatch_join_count d s :
  join_count (snd (dispatch transport cfg str_lower d s)) =
  if initial_sync_done s && is_join cfg d then bump cfg (join_count s)
  else join_count s.
Proof.
  destruct (initial_sync_done s && is_join cfg d) eqn:Hq.
  - apply andb_true_iff in Hq as [Hdone Hjoin].
    apply (join_step transport cfg str_lower d s Hdone Hjoin).
  - destruct d as [room [e|e|e|]].
    + unfold dispatch. simpl. rewrite on_member_event_ignored; [reflexivity|].
      intros [Hdone Hjoin]. rewrite Hdone, Hjoin in Hq. discriminate Hq.
    + unfold_handlers. crunch; reflexivity.
    + unfold_handlers. crunch; reflexivity.
    + reflexivity.
Qed.

Lemma bump_in_range c :
  (0 <= c)%Z -> (0 <= bump cfg c < Z.max 1 (REPOST_EVERY_N_JOINS cfg))%Z.
Proof.
  intros Hc. unfold bump.
  destruct (c + 1 >=? REPOST_EVERY_N_JOINS cfg)%Z eqn:Hge; lia.
Qed.

(** X19: at every point the loop of [main] can be left at, the join counter
    is at least zero and below the threshold, and zero when the threshold is
    one or less. *)
Theorem join_count_stays_in_range first rooms batches w :
  in_range cfg (snd (main transport cfg str_lower first rooms batches w)).
Proof.
  cut (in_range cfg (initial cfg w) ->
       in_range cfg (snd (main transport cfg str_lower first rooms batches w))).
  { intros H. apply H. unfold in_range. simpl. lia. }
  apply (main_lift transport cfg str_lower (fun a b => in_range cfg a -> in_range cfg b)).
  - auto.
  - auto.
  - intros d s H. unfold in_range in *. rewrite dispatch_join_count.
    destruct (initial_sync_done s && is_join cfg d);
      [apply bump_in_range; lia | exact H].
  - auto.
  - auto.
  - intros s H. unfold in_range in *.
    destruct (post_rules_cases s) as (_ & _ & Hc & _).
    cbv zeta in Hc. rewrite Hc. exact H.
Qed.

(** X20: with a threshold of one or less every qualifying join fires a
    repost and leaves the counter at zero. *)
Theorem low_threshold_reposts_on_every_join d s :
  (REPOST_EVERY_N_JOINS cfg <= 1)%Z ->
  initial_sync_done s = true ->
  is_join cfg d = true ->
  (0 <= join_count s)%Z ->
  let s' := snd (dispatch transport cfg str_lower d s) in
  join_count s' = 0%Z /\
  count is_repost (trace s') = S (count is_repost (trace s)).
Proof.
  intros HT Hdone Hjoin Hc.
  destruct (join_step transport cfg str_lower d s Hdone Hjoin) as (_ & Hcount & Hrep).
  cbv zeta in *. unfold bump in Hcount.
  assert ((join_count s + 1 >=? REPOST_EVERY_N_JOINS cfg)%Z = true) as Hge by lia.
  rewrite Hge in Hcount, Hrep. split; [exact Hcount | lia].
Qed.

(** *** Startup: the welcomed users found in [client.rooms] *)

(** What the body of the loop adds for one room. *)
Lemma seed_one room :
  if Nat.eqb (length (users room)) 2 && bool_decide (user_id cfg ∈ users room)
  then match filter (fun u => u ≠ user_id cfg) (users room) with
       | other :: _ => forall u, dm_partner cfg room u <-> u = other
       | [] => forall u, ~ dm_partner cfg room u
       end
  else forall u, ~ dm_partner cfg room u.
Proof.
  unfold dm_partner.
  destruct (Nat.eqb (length (users room)) 2) eqn:Hlen; simpl.
  - apply Nat.eqb_eq in Hlen.
    destruct (users room) as [|a [|b [|c l]]]; try discriminate Hlen.
    case_bool_decide as Hbot.
    + rewrite !filter_cons, filter_nil.
      apply elem_of_cons in Hbot as [Hbot | Hbot];
        [|apply elem_of_cons in Hbot as [Hbot | Hbot];
          [|apply elem_of_nil in Hbot; contradiction]].
      * subst a. destruct (decide (user_id cfg ≠ user_id cfg)) as [Hne|_];
          [contradiction|].
        destruct (decide (b ≠ user_id cfg)) as [Hb|Hb].
        -- intros u. rewrite !elem_of_cons, !elem_of_nil. intuition congruence.
        -- intros u. rewrite !elem_of_cons, !elem_of_nil.
           apply dec_stable in Hb. intuition congruence.
      * subst b. destruct (decide (user_id cfg ≠ user_id cfg)) as [Hne|_];
          [contradiction|].
        destruct (decide (a ≠ user_id cfg)) as [Ha|Ha].
        -- intros u. rewrite !elem_of_cons, !elem_of_nil. intuition congruence.
        -- intros u. rewrite !elem_of_cons, !elem_of_nil.
           apply dec_stable in Ha. intuition congruence.
    + intros u (_ & Hin & _). contradiction.
  - intros u (Hl & _). apply Nat.eqb_neq in Hlen. contradiction.
Qed.

(** What the loop leaves alone, and whom it adds. *)
Lemma seed_welcomed_frame rooms (s : @Sys W) :
  let r := seed_welcomed cfg rooms s in
  fst r = Returned tt /\
  trace (snd r) = trace s /\
  world (snd r) = world s /\
  invited_users (snd r) = invited_users s /\
  rules_event_ids (snd r) = rules_event_ids s /\
  join_count (snd r) = join_count s /\
  initial_sync_done (snd r) = initial_sync_done s /\
  (forall u, u ∈ welcomed_users (snd r) <->
             u ∈ welcomed_users s \/ exists room, In room rooms /\ dm_partner cfg room u).
Proof.
  revert s. induction rooms as [|room rooms IH]; intros s.
  - simpl. repeat (split; [reflexivity|]). intros u. split; [tauto|].
    intros [H | [room [[] _]]]. exact H.
  - cbv zeta. simpl. unfold mbind, M_bind.
    pose proof (seed_one room) as Hone.
    destruct (Nat.eqb (length (users room)) 2 && bool_decide (user_id cfg ∈ users room)).
    + destruct (filter (fun u => u ≠ user_id cfg) (users room)) as [|other rest].
      * simpl. destruct (IH s) as (H1 & H2 & H3 & H4 & H5 & H6 & H7 & H8).
        repeat (split; [assumption|]). intros u. rewrite H8. split.
        -- intros [H | [r [Hin Hp]]]; [left; exact H | right; exists r; tauto].
        -- intros [H | [r [[<- | Hin] Hp]]];
             [left; exact H | exfalso; exact (Hone u Hp) | right; exists r; tauto].
      * simpl.
        destruct (IH (add_welcomed other s)) as (H1 & H2 & H3 & H4 & H5 & H6 & H7 & H8).
        repeat (split; [assumption|]). intros u. rewrite H8. simpl.
        rewrite elem_of_union, elem_of_singleton. split.
        -- intros [[H | H] | [r [Hin Hp]]];
             [left; exact H
             |right; exists room; split; [left; reflexivity | apply Hone; exact H]
             |right; exists r; tauto].
        -- intros [H | [r [[<- | Hin] Hp]]];
             [left; left; exact H
             |left; right; apply Hone; exact Hp
             |right; exists r; tauto].
    + simpl. destruct (IH s) as (H1 & H2 & H3 & H4 & H5 & H6 & H7 & H8).
      repeat (split; [assumption|]). intros u. rewrite H8. split.
      * intros [H | [r [Hin Hp]]]; [left; exact H | right; exists r; tauto].
      * intros [H | [r [[<- | Hin] Hp]]];
          [left; exact H | exfalso; exact (Hone u Hp) | right; exists r; tauto].
Qed.

(** X21: the startup loop over [client.rooms] calls nothing and changes
    only [welcomed_users]: it adds exactly the other member of every room
    that has two members, the bot being one of them, whatever room that is. *)
Theorem seed_welcomed_adds_dm_partners rooms (s : @Sys W) :
  let r := seed_welcomed cfg rooms s in
  fst r = Returned tt /\
  trace (snd r) = trace s /\
  world (snd r) = world s /\
  invited_users (snd r) = invited_users s /\
  rules_event_ids (snd r) = rules_event_ids s /\
  join_count (snd r) = join_count s /\
  initial_sync_done (snd r) = initial_sync_done s /\
  (forall u, u ∈ welcomed_users (snd r) <->
             u ∈ welcomed_users s \/ exists room, In room rooms /\ dm_partner cfg room u).
Proof. exact (seed_welcomed_frame rooms s). Qed.

(** *** The loop and the startup of [main] *)

Lemma sync_loop_returns batches s :
  fst (sync_loop transport cfg str_lower batches s) = Returned tt.
Proof.
  revert s. induction batches as [|b batches IH]; intros s; [reflexivity|].
  simpl. unfold mbind, M_bind, try_except, mret, M_ret.
  destruct (sync transport cfg str_lower b s) as [[[]|x] s1]; apply IH.
Qed.

(** X22: no exception leaves the sync loop, and a batch that ended in one
    does not keep the later batches from being handled: the loop over two
    lists of batches is the loop over the second, started where the first
    one ended. *)
Theorem sync_loop_keeps_going before after s :
  fst (sync_loop transport cfg str_lower before s) = Returned tt /\
  sync_loop transport cfg str_lower (before ++ after) s =
  sync_loop transport cfg str_lower after
    (snd (sync_loop transport cfg str_lower before s)).
Proof.
  split; [apply sync_loop_returns|].
  revert s. induction before as [|b before IH]; intros s; [reflexivity|].
  simpl. unfold mbind, M_bind, try_except, mret, M_ret.
  destruct (sync transport cfg str_lower b s) as [[[]|x] s1]; apply IH.
Qed.

Lemma sync_typed_returns batch s :
  forallb (fun d => negb (is_unknown d)) batch = true ->
  initial_sync_done s = false ->
  fst (sync transport cfg str_lower batch s) = Returned tt.
Proof.
  revert s. induction batch as [|d batch IH]; intros s Hall Hflag; [reflexivity|].
  simpl in Hall. apply andb_true_iff in Hall as [Hd Hall].
  simpl. unfold mbind, M_bind.
  assert (fst (dispatch transport cfg str_lower d s) = Returned tt) as Hret.
  { destruct d as [room [e|e|e|]]; unfold dispatch; simpl.
    - rewrite on_member_event_before_sync; [reflexivity | exact Hflag].
    - apply on_reaction_event_returns.
    - discriminate Hd.
    - reflexivity. }
  pose proof (dispatch_flag transport cfg str_lower d s) as Hkeep.
  destruct (dispatch transport cfg str_lower d s) as [[[]|x] s1];
    [|discriminate Hret].
  apply IH; [exact Hall | simpl in Hkeep; congruence].
Qed.

Lemma post_rules_raises s x :
  fst (post_rules transport cfg s) = Raised x <->
  truthy (RULES_TEXT cfg) = true /\
  fst (room_send transport (world s) (TARGET_ROOM_ID cfg) (rules_content cfg)) = Raised x.
Proof.
  unfold post_rules, rules_content. unfold_m. simpl.
  destruct (truthy (RULES_TEXT cfg)); simpl;
    [|split; [intros H; discriminate H | intros [H _]; discriminate H]].
  destruct (room_send transport (world s) (TARGET_ROOM_ID cfg)
              (make_content (RULES_TEXT cfg) (RULES_HTML cfg)))
    as [[[ev|]|z] w1]; simpl; split;
    try (intros H; discriminate H); try (intros [_ H]; discriminate H).
  - intros [= <-]. split; reflexivity.
  - intros [_ [= <-]]. reflexivity.
Qed.

Lemma seed_welcomed_returns rooms (s : @Sys W) :
  fst (seed_welcomed cfg rooms s) = Returned tt.
Proof. exact (proj1 (seed_welcomed_frame rooms s)). Qed.

(** [main] is the first sync followed by the rest. *)
Lemma main_after_first_sync first rooms batches w :
  main transport cfg str_lower first rooms batches w =
  (sync transport cfg str_lower first;;
   after_first_sync transport cfg str_lower rooms batches) (initial cfg w).
Proof. reflexivity. Qed.

(** X23: once the first sync has returned, one thing only stops [main], the
    startup post: the run from l. 238 on raises exactly when rules text is
    configured and the [room_send] of the startup post raises, and it stops
    in the state that post left; in every other case it handles all the
    batches of the loop, whatever their callbacks raise, and returns. *)
Theorem main_stops_only_at_startup rooms batches s :
  let ready := snd (seed_welcomed cfg rooms (set_initial_sync_done true s)) in
  let startup := if truthy (RULES_TEXT cfg) then post_rules transport cfg else mret tt in
  let run := after_first_sync transport cfg str_lower rooms batches s in
  (forall first w,
     sync transport cfg str_lower first (initial cfg w) = (Returned tt, s) ->
     main transport cfg str_lower first rooms batches w = run) /\
  (forall x,
     fst run = Raised x <->
     truthy (RULES_TEXT cfg) = true /\
     fst (room_send transport (world ready) (TARGET_ROOM_ID cfg) (rules_content cfg))
       = Raised x) /\
  (forall x, fst run = Raised x -> snd run = snd (post_rules transport cfg ready)) /\
  ((forall x, fst run <> Raised x) ->
   fst run = Returned tt /\
   snd run = snd (sync_loop transport cfg str_lower batches (snd (startup ready)))).
Proof.
  cbv zeta. split.
  { intros first w Hsync. rewrite main_after_first_sync.
    unfold mbind at 1. unfold M_bind at 1. rewrite Hsync. reflexivity. }
  unfold after_first_sync, mbind, M_bind, modify.
  pose proof (seed_welcomed_returns rooms (set_initial_sync_done true s)) as Hseed.
  destruct (seed_welcomed cfg rooms (set_initial_sync_done true s)) as [[[]|z] s2];
    [|discriminate Hseed].
  simpl.
  pose proof (post_rules_raises s2) as Hiff.
  pose proof (sync_loop_returns batches) as Hloop.
  destruct (truthy (RULES_TEXT cfg)) eqn:Htext.
  - destruct (post_rules transport cfg s2) as [[[]|z] s3]; simpl in *.
    + split; [|split].
      * intros x. rewrite Hloop. rewrite <- Hiff. split; intros H; discriminate H.
      * intros x. rewrite Hloop. intros H. discriminate H.
      * intros _. split; [apply Hloop | reflexivity].
    + split; [|split].
      * intros x. rewrite <- Hiff. reflexivity.
      * intros x _. reflexivity.
      * intros H. exfalso. exact (H z eq_refl).
  - unfold mret, M_ret. simpl. split; [|split].
    + intros x. rewrite Hloop. split; [intros H; discriminate H | intros [H _]; discriminate H].
    + intros x. rewrite Hloop. intros H. discriminate H.
    + intros _. split; [apply Hloop | reflexivity].
Qed.

(** *** Where the rules text comes from *)

Lemma silent_post_rules s :
  truthy (RULES_TEXT cfg) = false ->
  post_rules transport cfg s = (Returned tt, record (Enter Post_rules) (world s) s).
Proof. intros H. exact (proj1 (proj2 (proj2 (proj2 (post_rules_cases s)))) H). Qed.

Lemma silent_member_event room e s :
  truthy (RULES_TEXT cfg) = false ->
  fst (on_member_event transport cfg room e s) = Returned tt.
Proof.
  intros H. unfold on_member_event, post_rules, send_welcome_dm, send_dm. unfold_m.
  destruct (truthy (RULES_TEXT cfg)); [discriminate H|].
  crunch; reflexivity.
Qed.

Lemma silent_run first rooms batches w :
  truthy (RULES_TEXT cfg) = false ->
  rules_event_ids (snd (main transport cfg str_lower first rooms batches w))
  = {[ TARGET_EVENT_ID cfg ]}.
Proof.
  intros H.
  apply (main_inv (fun s => rules_event_ids s = {[ TARGET_EVENT_ID cfg ]})).
  - intros n s Hs. exact Hs.
  - intros s Hs. rewrite (silent_post_rules s H). exact Hs.
  - intros u s Hs. rewrite <- Hs.
    unfold send_welcome_dm, send_dm. unfold_m. crunch; reflexivity.
  - intros u s Hs. rewrite <- Hs.
    unfold handle_invite, try_invite, send_tips_dm, send_dm. unfold_m. crunch; reflexivity.
  - intros s Hs. exact Hs.
  - apply seed_welcomed_inv. intros u s Hs. exact Hs.
  - intros w0. reflexivity.
Qed.

Lemma load_texts_rules fs environ base :
  load_texts fs environ base = Loaded cfg ->
  _load_text fs environ (py "/app/rules.txt") (py "RULES_TEXT") = Text (RULES_TEXT cfg).
Proof.
  unfold load_texts, then_load.
  repeat match goal with
         | |- context [match _load_text ?a ?b ?c ?d with _ => _ end] =>
             destruct (_load_text a b c d); [|intros H; discriminate H]
         end.
  intros [= <-]. reflexivity.
Qed.

(** X4: where the rules text comes from decides whether the bot posts.  A
    file at /app/rules.txt shadows [RULES_TEXT] of the environment, and a
    blank file switches the rules posts off for the whole run even when
    the variable is set: every [post_rules] returns without a client call,
    no join makes [on_member_event] raise, and the tracked set stays
    [{TARGET_EVENT_ID}].  Without a file the variable is taken as it is, not
    stripped: a value of whitespace only is text, and is posted. *)
Theorem rules_file_shadows_environ fs environ base :
  load_texts fs environ base = Loaded cfg ->
  (forall text,
     fs !! py "/app/rules.txt" = Some (File text) ->
     RULES_TEXT cfg = strip text /\
     (forallb is_space text = true ->
      (forall s, post_rules transport cfg s
                 = (Returned tt, record (Enter Post_rules) (world s) s)) /\
      (forall room e s, fst (on_member_event transport cfg room e s) = Returned tt) /\
      (forall first rooms batches w,
         rules_event_ids (snd (main transport cfg str_lower first rooms batches w))
         = {[ TARGET_EVENT_ID cfg ]}))) /\
  (fs !! py "/app/rules.txt" = None ->
   RULES_TEXT cfg = default [] (environ !! py "RULES_TEXT") /\
   (forall v,
      environ !! py "RULES_TEXT" = Some v -> v <> [] ->
      forall s, exists x,
        trace (snd (post_rules transport cfg s)) = trace s ++
          [Enter Post_rules;
           Room_send (TARGET_ROOM_ID cfg)
             {| body := v; formatted_body := formatted_body (rules_content cfg) |} x])).
Proof.
  intros Hload. apply load_texts_rules in Hload. unfold _load_text in Hload. split.
  - intros text Hfile. rewrite Hfile in Hload. injection Hload as Hr.
    split; [symmetry; exact Hr|]. intros Hblank.
    assert (truthy (RULES_TEXT cfg) = false) as Htext.
    { rewrite <- Hr, (proj2 (strip_nil_iff text) Hblank). reflexivity. }
    split; [|split].
    + intros s. apply silent_post_rules. exact Htext.
    + intros room e s. apply silent_member_event. exact Htext.
    + intros first rooms batches w. apply silent_run. exact Htext.
  - intros Hnone. rewrite Hnone in Hload. injection Hload as Hr.
    split; [symmetry; exact Hr|]. intros v Hv Hne s.
    rewrite Hv in Hr. simpl in Hr.
    assert (truthy (RULES_TEXT cfg) = true) as Htext.
    { rewrite <- Hr. destruct v; [contradiction | reflexivity]. }
    destruct (post_rules_cases s) as (_ & _ & _ & _ & Hon).
    destruct (Hon Htext) as [x [Htrace _]]. exists x. rewrite Htrace.
    unfold rules_content, make_content. simpl. rewrite <- Hr. reflexivity.
Qed.

End More.

(** ** Instances of the further properties *)

Lemma post_rules_tracks_its_post_witness :
  exists x,
    trace (snd (post_rules scripted (example_cfg 10) (initial (example_cfg 10) fresh_ids)))
    = [Enter Post_rules;
       Room_send (py "!rules:example.org") (rules_content (example_cfg 10)) x].
Proof.
  destruct (post_rules_tracks_its_post scripted (example_cfg 10)
              (initial (example_cfg 10) fresh_ids)) as (_ & _ & _ & _ & Hon).
  destruct (Hon eq_refl) as [x [Htrace _]]. exists x. exact Htrace.
Defined.

Lemma reposted_message_is_tracked_witness :
  let s1 := snd (post_rules scripted (example_cfg 10) (initial (example_cfg 10) fresh_ids)) in
  let s2 := snd (on_reaction_event scripted (example_cfg 10) ascii_lower rules_room
                   alice_accepts_repost s1) in
  py "$startup" ∈ rules_event_ids s1 /\
  count is_invite_call (trace s2) = S (count is_invite_call (trace s1)).
Proof.
  apply (reposted_message_is_tracked scripted (example_cfg 10) ascii_lower rules_room
           alice_accepts_repost (py "$startup") (initial (example_cfg 10) fresh_ids)).
  - reflexivity.
  - reflexivity.
  - reflexivity.
  - reflexivity.
  - vm_compute. reflexivity.
  - by_compute.
  - by_compute.
Defined.

Lemma welcome_is_marked_before_sending_witness :
  let r := send_welcome_dm scripted (example_cfg 10) alice (started 10 no_dm_room) in
  fst r = Returned tt /\
  alice ∈ welcomed_users (snd r) /\
  count (is_dm_room_for alice) (trace (snd r))
  = S (count (is_dm_room_for alice) (trace (started 10 no_dm_room))) /\
  send_welcome_dm scripted (example_cfg 10) alice (snd r)
  = (Returned tt, record (Enter (Send_welcome_dm alice)) (world (snd r)) (snd r)).
Proof.
  apply (welcome_is_marked_before_sending scripted (example_cfg 10) alice
           (started 10 no_dm_room)).
  - by_compute.
  - by_compute.
  - reflexivity.
Defined.

Lemma on_unknown_event_raises_before_acting_witness :
  snd (on_unknown_event scripted (example_cfg 10) ascii_lower rules_room
         malformed_reaction (started 10 no_script)) = started 10 no_script /\
  fst (on_unknown_event scripted (example_cfg 10) ascii_lower rules_room
         alice_accepts_untyped (started 10 no_script)) = Returned tt.
Proof.
  destruct (on_unknown_event_raises_before_acting scripted (example_cfg 10) ascii_lower
              rules_room malformed_reaction (started 10 no_script)) as [Hraise _].
  destruct (on_unknown_event_raises_before_acting scripted (example_cfg 10) ascii_lower
              rules_room alice_accepts_untyped (started 10 no_script)) as [_ Hok].
  split.
  - apply (Hraise (AttributeError (py "str") (py "get"))). vm_compute. reflexivity.
  - apply (Hok (reaction_payload alice_accepts)). vm_compute. reflexivity.
Defined.

Lemma on_member_event_raises_only_from_the_repost_witness :
  let s1 := snd (on_member_event scripted (example_cfg 2) rules_room alice_joins
                   (started 2 repost_fails)) in
  let s' := snd (on_member_event scripted (example_cfg 2) rules_room bob_joins s1) in
  join_count s' = 0%Z /\ welcomed_users s' = welcomed_users s1.
Proof.
  cbv zeta.
  destruct (on_member_event_raises_only_from_the_repost scripted (example_cfg 2)
              rules_room bob_joins (TransportError (py "Cannot connect to host"))
              (snd (on_member_event scripted (example_cfg 2) rules_room alice_joins
                      (started 2 repost_fails))))
    as (_ & _ & _ & _ & _ & Hcount & Hwelcomed & _).
  - vm_compute. reflexivity.
  - split; [exact Hcount | exact Hwelcomed].
Defined.

Lemma low_threshold_reposts_on_every_join_witness :
  let s' := snd (dispatch scripted (example_cfg 0) ascii_lower
                   (rules_room, Member alice_joins) (started 0 no_script)) in
  join_count s' = 0%Z /\
  count is_repost (trace s') = S (count is_repost (trace (started 0 no_script))).
Proof.
  apply (low_threshold_reposts_on_every_join scripted (example_cfg 0) ascii_lower
           (rules_room, Member alice_joins) (started 0 no_script));
    vm_compute; first [reflexivity | discriminate].
Defined.

Lemma tracked_ids_are_sourced_witness :
  py "$repost" = TARGET_EVENT_ID (example_cfg 1) \/
  posted (example_cfg 1) (py "$repost")
    (trace (snd (main scripted (example_cfg 1) ascii_lower [] [rules_room]
                   [[(rules_room, Member alice_joins)]]
                   {| invites := []; creates := [];
                      sends := [Returned (RoomSendResponse (py "$startup"));
                                Returned (RoomSendResponse (py "$repost"))] |}))).
Proof.
  apply (tracked_ids_are_sourced scripted (example_cfg 1) ascii_lower [] [rules_room]
           [[(rules_room, Member alice_joins)]]).
  by_compute.
Defined.

Lemma main_stops_only_at_startup_witness :
  let s := initial (example_cfg 10) startup_fails in
  let run := after_first_sync scripted (example_cfg 10) ascii_lower [rules_room]
               [[(rules_room, Member alice_joins)]] s in
  snd run = snd (post_rules scripted (example_cfg 10)
                   (snd (seed_welcomed (example_cfg 10) [rules_room]
                           (set_initial_sync_done true s)))).
Proof.
  cbv zeta.
  destruct (main_stops_only_at_startup scripted (example_cfg 10) ascii_lower
              [rules_room] [[(rules_room, Member alice_joins)]]
              (initial (example_cfg 10) startup_fails))
    as (_ & _ & Hstate & _).
  apply (Hstate (TransportError (py "Cannot connect to host"))).
  vm_compute. reflexivity.
Defined.

(** The startup post that fails ends the run before the loop: alice's join
    of the first batch is never handled. *)
Example startup_failure_ends_the_run :
  let run := main scripted (example_cfg 10) ascii_lower [] [rules_room]
               [[(rules_room, Member alice_joins)]] startup_fails in
  fst run = Raised (TransportError (py "Cannot connect to host")) /\
  join_count (snd run) = 0%Z /\
  count (is_welcome_of alice) (trace (snd run)) = 0.
Proof. vm_compute. repeat split; reflexivity. Qed.

Lemma rules_file_shadows_environ_witness :
  (forall first rooms batches w,
     rules_event_ids
       (snd (main scripted blank_rules_cfg ascii_lower first rooms batches w))
     = {[ py "$rules" ]}) /\
  (forall s : @Sys Script, exists x,
     trace (snd (post_rules scripted space_rules_cfg s)) = trace s ++
       [Enter Post_rules;
        Room_send (py "!rules:example.org")
          {| body := py " "; formatted_body := None |} x]).
Proof.
  split.
  - destruct (rules_file_shadows_environ scripted blank_rules_cfg ascii_lower
                blank_rules_fs example_environ (example_cfg 1)) as [Hfile _];
      [vm_compute; reflexivity|].
    destruct (Hfile (py "  
")) as [_ Hblank]; [vm_compute; reflexivity|].
    destruct Hblank as (_ & _ & Hrun); [vm_compute; reflexivity|].
    exact Hrun.
  - destruct (rules_file_shadows_environ scripted space_rules_cfg ascii_lower
                (∅ : gmap pystr node) space_environ (example_cfg 1)) as [_ Henv];
      [vm_compute; reflexivity|].
    destruct Henv as [_ Hpost]; [vm_compute; reflexivity|].
    intros s. apply (Hpost (py " ")); [vm_compute; reflexivity | discriminate].
Defined.

(** With the blank rules file a join at the threshold posts nothing and the
    joiner is welcomed; with the variable of one space the bot posts the
    space. *)
Example blank_file_and_blank_variable :
  load_texts blank_rules_fs example_environ (example_cfg 1) = Loaded blank_rules_cfg /\
  load_texts ∅ space_environ (example_cfg 1) = Loaded space_rules_cfg /\
  load_texts example_fs example_environ (example_cfg 1) = Loaded
    {| TARGET_ROOM_ID := py "!rules:example.org";
       TARGET_EVENT_ID := py "$rules";
       INVITE_SPACE_ID := py "!space:example.org";
       REPOST_EVERY_N_JOINS := 1;
       RULES_TEXT := py "Be kind.";
       RULES_HTML := [];
       WELCOME_TEXT := py " hello ";
       WELCOME_HTML := [];
       TIPS_TEXT := [];
       TIPS_HTML := [];
       user_id := py "@bot:example.org" |} /\
  load_texts (<[ py "/app/tips.html" := Unreadable PermissionError ]> example_fs)
    example_environ (example_cfg 1) = ModuleRaises PermissionError /\
  trace (snd (main scripted blank_rules_cfg ascii_lower [] []
                [[(rules_room, Member alice_joins)]] no_script))
  = [Enter Post_rules;
     Enter (Send_welcome_dm alice);
     Enter (Send_dm alice (py " hello ") []);
     Room_create alice (Returned (RoomCreateResponse (py "!dm:example.org")));
     Room_send (py "!dm:example.org") {| body := py " hello "; formatted_body := None |}
       (Returned (RoomSendResponse (py "$sent")))] /\
  trace (snd (main scripted space_rules_cfg ascii_lower [] [] [] no_script))
  = [Enter Post_rules;
     Room_send (py "!rules:example.org") {| body := py " "; formatted_body := None |}
       (Returned (RoomSendResponse (py "$sent")))].
Proof. vm_compute. repeat split; reflexivity. Qed.

Lemma other_rooms_are_ignored_witness :
  dispatch scripted (example_cfg 10) ascii_lower (lobby, Reaction alice_accepts)
    (started 10 no_script)
  = (Returned tt, started 10 no_script).
Proof.
  apply (other_rooms_are_ignored scripted (example_cfg 10) ascii_lower
           (lobby, Reaction alice_accepts) (started 10 no_script)).
  by_compute.
Defined.
